(** * Text Analyzer front end (frontend/src/App.jsx)

    A shallow embedding of the React component [App]: its five state hooks,
    its event handlers ([handleAnalyze], [handleClear], the [handleCopy*]
    family, [handleDownloadPDF]) and the controls the JSX renders for them,
    followed by the properties of the request lifecycle, the copy
    acknowledgement and the exported report. *)

From Stdlib Require Import ZArith NArith List String Ascii Bool Lia DecimalString.
Import ListNotations.
Open Scope list_scope.

(** ** JavaScript strings

    A JS string is a sequence of UTF-16 code units; [length] counts code
    units and [trim] strips white space and line terminators, all of which
    are single code units. *)
Module Js.

Definition code_unit := N.
Definition jsstring := list code_unit.

(** A string literal of the source (all literals of App.jsx are ASCII). *)
Definition lit (s : string) : jsstring := map N_of_ascii (list_ascii_of_string s).

(** ECMAScript WhiteSpace and LineTerminator code points. *)
Definition isWhiteSpace (c : code_unit) : bool :=
  ((9 <=? c) && (c <=? 13) || (c =? 32) || (c =? 160) || (c =? 5760)
   || (8192 <=? c) && (c <=? 8202) || (c =? 8232) || (c =? 8233)
   || (c =? 8239) || (c =? 8287) || (c =? 12288) || (c =? 65279))%N.

Fixpoint trimStart (s : jsstring) : jsstring :=
  match s with
  | c :: r => if isWhiteSpace c then trimStart r else s
  | [] => []
  end.

Definition trimEnd (s : jsstring) : jsstring := rev (trimStart (rev s)).

Definition trim (s : jsstring) : jsstring := trimEnd (trimStart s).

(** ToBoolean on a string: only the empty string is falsy. *)
Definition truthy (s : jsstring) : bool :=
  match s with [] => false | _ :: _ => true end.

(** [a || d] where [a] may be undefined (None) or a string. *)
Definition or_else (a : option jsstring) (d : jsstring) : jsstring :=
  match a with
  | Some s => if truthy s then s else d
  | None => d
  end.

(** Array.prototype.join on an array of strings. *)
Fixpoint join (sep : jsstring) (l : list jsstring) : jsstring :=
  match l with
  | [] => []
  | [x] => x
  | x :: r => x ++ sep ++ join sep r
  end.

(** ToString of a non-negative integer (an array length or index). *)
Definition ofNat (n : nat) : jsstring := lit (NilZero.string_of_uint (Nat.to_uint n)).

End Js.
Import Js.

(** JSON numbers of the response are IEEE doubles.  The component only ever
    interpolates them into template literals, so a number is represented by
    its ToString rendering. *)
Record JsNumber := { numToString : jsstring }.

(** ** The analysis result (the JSON body of a successful response) *)

Record TextStats := {
  word_count : JsNumber;
  sentence_count : JsNumber;
  avg_sentence_length : JsNumber;
  avg_word_length : JsNumber;
  character_count : JsNumber
}.

Record Readability := {
  flesch_kincaid_grade : JsNumber;
  reading_level : jsstring;
  description : jsstring
}.

Record TenseAnalysis := {
  past : list jsstring;
  present : list jsstring;
  future : list jsstring
}.

Record WordCount := { word : jsstring; count : JsNumber }.

(** Each category array may be absent (the source reads it with [?.]). *)
Record PartsOfSpeech := {
  nouns : option (list jsstring);
  verbs : option (list jsstring);
  adjectives : option (list jsstring);
  adverbs : option (list jsstring);
  pronouns : option (list jsstring);
  prepositions : option (list jsstring);
  conjunctions : option (list jsstring)
}.

Record AnalysisResult := {
  text_stats : TextStats;
  readability : Readability;
  tense_analysis : TenseAnalysis;
  passive_sentences : list jsstring;
  word_frequency : list WordCount;
  parts_of_speech : PartsOfSpeech
}.

(** ** Component state: the five [useState] hooks *)

Record AppState := {
  text : jsstring;
  result : option AnalysisResult;
  loading : bool;
  error : jsstring;
  copiedCategory : option jsstring
}.

Definition initialState : AppState :=
  {| text := []; result := None; loading := false; error := [];
     copiedCategory := None |}.

Definition setText (v : jsstring) (s : AppState) : AppState :=
  {| text := v; result := result s; loading := loading s; error := error s;
     copiedCategory := copiedCategory s |}.
Definition setResult (v : option AnalysisResult) (s : AppState) : AppState :=
  {| text := text s; result := v; loading := loading s; error := error s;
     copiedCategory := copiedCategory s |}.
Definition setLoading (v : bool) (s : AppState) : AppState :=
  {| text := text s; result := result s; loading := v; error := error s;
     copiedCategory := copiedCategory s |}.
Definition setError (v : jsstring) (s : AppState) : AppState :=
  {| text := text s; result := result s; loading := loading s; error := v;
     copiedCategory := copiedCategory s |}.
Definition setCopiedCategory (v : option jsstring) (s : AppState) : AppState :=
  {| text := text s; result := result s; loading := loading s; error := error s;
     copiedCategory := v |}.

(** ** Effects a handler requests from the browser *)

Inductive Callback := ClearCopied.   (* () => setCopiedCategory(null) *)

Inductive Effect :=
| Fetch (url : jsstring) (bodyText : jsstring)   (* POST, body {text} *)
| ClipboardWriteText (s : jsstring)
| SetTimeout (cb : Callback) (delay : Z).

Definition analyzeUrl : jsstring := lit "http://127.0.0.1:8000/api/analyze/".

(** ** handleAnalyze

    The part that runs synchronously, up to the [await fetch]. *)
Definition handleAnalyze (s : AppState) : AppState * list Effect :=
  if negb (truthy (trim (text s))) || (List.length (text s) <? 10)%nat then
    (setError (lit "Please enter at least 10 characters of text") s, [])
  else
    (setResult None (setError [] (setLoading true s)),
     [Fetch analyzeUrl (text s)]).

(** How the awaited call ends. *)
Inductive FetchOutcome :=
| Rejected (message : option jsstring)      (* fetch or json() threw err *)
| RespondedOk (data : AnalysisResult)       (* response.ok *)
| RespondedError (detail : option jsstring) (* !response.ok, data.detail *).

(** The rest of [handleAnalyze]: the try body after the await, the catch
    clause and the finally clause.  The try body either completes or throws
    an error whose [message] is returned on the right. *)
Definition analyzeTry (o : FetchOutcome) (s : AppState)
  : AppState + option jsstring :=
  match o with
  | Rejected message => inr message
  | RespondedError detail => inr (Some (or_else detail (lit "Analysis failed")))
  | RespondedOk data => inl (setResult (Some data) s)
  end.

Definition handleAnalyzeSettled (o : FetchOutcome) (s : AppState) : AppState :=
  let s1 :=
    match analyzeTry o s with
    | inl s' => s'
    | inr message => setError (or_else message (lit "Failed to connect to server")) s
    end in
  setLoading false s1.

(** ** handleClear *)
Definition handleClear (s : AppState) : AppState :=
  setError [] (setResult None (setText [] s)).

(** ** The copy handlers

    Each writes to the clipboard, marks its category as copied and starts a
    2000 ms timer whose callback clears the mark.  No handler keeps the timer
    id and nothing in the component calls clearTimeout. *)

Definition nl : jsstring := [10%N].

(** The second argument of [handleCopyCategory]: an array or a string. *)
Inductive Words :=
| WArray (l : list jsstring)
| WString (s : jsstring).

Definition copyTextOf (words : Words) : jsstring :=
  match words with
  | WArray l => join (lit ", ") l
  | WString s => s
  end.

Definition handleCopyCategory (category : jsstring) (words : Words)
    (s : AppState) : AppState * list Effect :=
  let copyText := copyTextOf words in
  (setCopiedCategory (Some category) s,
   [ClipboardWriteText copyText; SetTimeout ClearCopied 2000]).

(** The handlers below read [result]; on a null result the property access
    throws before anything is done (None). *)
Definition handleCopyStats (s : AppState) : option (AppState * list Effect) :=
  match result s with
  | None => None
  | Some r =>
    let statsText :=
      lit "Words: " ++ numToString (word_count (text_stats r)) ++ nl ++
      lit "Sentences: " ++ numToString (sentence_count (text_stats r)) ++ nl ++
      lit "Avg Words/Sentence: " ++ numToString (avg_sentence_length (text_stats r)) ++ nl ++
      lit "Avg Word Length: " ++ numToString (avg_word_length (text_stats r)) ++ nl ++
      lit "Characters: " ++ numToString (character_count (text_stats r)) in
    Some (setCopiedCategory (Some (lit "stats")) s,
          [ClipboardWriteText statsText; SetTimeout ClearCopied 2000])
  end.

Definition handleCopyReadability (s : AppState) : option (AppState * list Effect) :=
  match result s with
  | None => None
  | Some r =>
    let readText :=
      lit "Flesch-Kincaid Grade: " ++ numToString (flesch_kincaid_grade (readability r)) ++ nl ++
      lit "Reading Level: " ++ reading_level (readability r) ++ nl ++
      lit "Description: " ++ description (readability r) in
    Some (setCopiedCategory (Some (lit "readability")) s,
          [ClipboardWriteText readText; SetTimeout ClearCopied 2000])
  end.

Definition handleCopyPassive (s : AppState) : option (AppState * list Effect) :=
  match result s with
  | None => None
  | Some r =>
    let passiveText :=
      if (0 <? List.length (passive_sentences r))%nat
      then join nl (passive_sentences r)
      else lit "No passive voice sentences detected." in
    Some (setCopiedCategory (Some (lit "passive")) s,
          [ClipboardWriteText passiveText; SetTimeout ClearCopied 2000])
  end.

Definition handleCopyWordFreq (s : AppState) : option (AppState * list Effect) :=
  match result s with
  | None => None
  | Some r =>
    let freqText :=
      join nl (map (fun item => word item ++ lit ": " ++ numToString (count item))
                   (word_frequency r)) in
    Some (setCopiedCategory (Some (lit "wordfreq")) s,
          [ClipboardWriteText freqText; SetTimeout ClearCopied 2000])
  end.

(** ** The controls of the JSX *)

(** The Analyze button: [disabled={loading || text.length < 10}]. *)
Definition analyzeDisabled (s : AppState) : bool :=
  loading s || (List.length (text s) <? 10)%nat.

Inductive CopyButton :=
| BtnStats | BtnReadability
| BtnPast | BtnPresent | BtnFuture
| BtnPassive | BtnWordFreq
| BtnNouns | BtnVerbs | BtnAdjectives | BtnAdverbs
| BtnPronouns | BtnPrepositions | BtnConjunctions.

(** [cond && <button onClick={() => handleCopyCategory(category, words)}>]
    for a tense category: the button exists only when the array is
    non-empty. *)
Definition tenseButton (category : jsstring) (words : list jsstring)
    (s : AppState) : option (AppState * list Effect) :=
  if (0 <? List.length words)%nat
  then Some (handleCopyCategory category (WArray words) s)
  else None.

(** The same for a part of speech, read with [words?.length > 0]. *)
Definition posButton (category : jsstring) (words : option (list jsstring))
    (s : AppState) : option (AppState * list Effect) :=
  match words with
  | Some l => tenseButton category l s
  | None => None
  end.

(** What a click on a copy button does; None when the button is not in the
    rendered tree (the whole results panel is under [result && ...]). *)
Definition clickCopy (b : CopyButton) (s : AppState)
  : option (AppState * list Effect) :=
  match result s with
  | None => None
  | Some r =>
    match b with
    | BtnStats => handleCopyStats s
    | BtnReadability => handleCopyReadability s
    | BtnPast => tenseButton (lit "past") (past (tense_analysis r)) s
    | BtnPresent => tenseButton (lit "present") (present (tense_analysis r)) s
    | BtnFuture => tenseButton (lit "future") (future (tense_analysis r)) s
    | BtnPassive => handleCopyPassive s
    | BtnWordFreq => handleCopyWordFreq s
    | BtnNouns => posButton (lit "nouns") (nouns (parts_of_speech r)) s
    | BtnVerbs => posButton (lit "verbs") (verbs (parts_of_speech r)) s
    | BtnAdjectives => posButton (lit "adjectives") (adjectives (parts_of_speech r)) s
    | BtnAdverbs => posButton (lit "adverbs") (adverbs (parts_of_speech r)) s
    | BtnPronouns => posButton (lit "pronouns") (pronouns (parts_of_speech r)) s
    | BtnPrepositions => posButton (lit "prepositions") (prepositions (parts_of_speech r)) s
    | BtnConjunctions => posButton (lit "conjunctions") (conjunctions (parts_of_speech r)) s
    end
  end.

(** ** The component in its environment

    The browser side: the analyze calls that have been issued and not yet
    settled, every request body sent so far, the clipboard, the clock and the
    pending timers (due time and callback). *)
Record World := {
  app : AppState;
  inFlight : nat;
  requests : list jsstring;
  clipboard : option jsstring;
  clock : Z;
  timers : list (Z * Callback)
}.

Definition initialWorld : World :=
  {| app := initialState; inFlight := 0; requests := []; clipboard := None;
     clock := 0; timers := [] |}.

Definition withApp (a : AppState) (w : World) : World :=
  {| app := a; inFlight := inFlight w; requests := requests w;
     clipboard := clipboard w; clock := clock w; timers := timers w |}.

Definition perform (e : Effect) (w : World) : World :=
  match e with
  | Fetch _ body =>
    {| app := app w; inFlight := S (inFlight w); requests := requests w ++ [body];
       clipboard := clipboard w; clock := clock w; timers := timers w |}
  | ClipboardWriteText t =>
    {| app := app w; inFlight := inFlight w; requests := requests w;
       clipboard := Some t; clock := clock w; timers := timers w |}
  | SetTimeout cb delay =>
    {| app := app w; inFlight := inFlight w; requests := requests w;
       clipboard := clipboard w; clock := clock w;
       timers := timers w ++ [((clock w + delay)%Z, cb)] |}
  end.

Definition performAll (es : list Effect) (w : World) : World :=
  fold_left (fun w e => perform e w) es w.

Definition commit (r : AppState * list Effect) (w : World) : World :=
  performAll (snd r) (withApp (fst r) w).

Definition runCallback (cb : Callback) (s : AppState) : AppState :=
  match cb with
  | ClearCopied => setCopiedCategory None s
  end.

(** Run the callbacks of the timers that are due at time [t] and keep the
    others. *)
Fixpoint fireDue (t : Z) (ts : list (Z * Callback)) (s : AppState)
  : AppState * list (Z * Callback) :=
  match ts with
  | [] => (s, [])
  | (due, cb) :: rest =>
    if (due <=? t)%Z
    then fireDue t rest (runCallback cb s)
    else let '(s', keep) := fireDue t rest s in (s', (due, cb) :: keep)
  end.

Definition elapse (dt : Z) (w : World) : World :=
  let t := (clock w + Z.max 0 dt)%Z in
  let '(s', keep) := fireDue t (timers w) (app w) in
  {| app := s'; inFlight := inFlight w; requests := requests w;
     clipboard := clipboard w; clock := t; timers := keep |}.

Inductive Event :=
| Input (value : jsstring)        (* textarea onChange *)
| ClickAnalyze
| ClickClear
| ClickCopy (b : CopyButton)
| Settle (o : FetchOutcome)       (* a pending analyze call ends *)
| Elapse (dt : Z).

Definition step (w : World) (e : Event) : World :=
  match e with
  | Input value => withApp (setText value (app w)) w
  | ClickAnalyze =>
    if analyzeDisabled (app w) then w else commit (handleAnalyze (app w)) w
  | ClickClear => withApp (handleClear (app w)) w
  | ClickCopy b =>
    match clickCopy b (app w) with
    | Some r => commit r w
    | None => w
    end
  | Settle o =>
    match inFlight w with
    | O => w
    | S n =>
      {| app := handleAnalyzeSettled o (app w); inFlight := n;
         requests := requests w; clipboard := clipboard w; clock := clock w;
         timers := timers w |}
    end
  | Elapse dt => elapse dt w
  end.

Definition run (es : list Event) (w : World) : World := fold_left step es w.

(** ** The jsPDF document

    Of the library object the export only uses the active font, the current
    page and the text placed so far; [docText] places a line on the current
    page in the active font, [addPage] opens a new page and makes it
    current. *)

Inductive FontStyle := normal | bold.

Record Placed := {
  p_page : nat;
  p_size : Z;
  p_style : FontStyle;
  p_text : jsstring;
  p_x : Z;
  p_y : Z
}.

Record jsPDF := {
  activeFontSize : Z;
  activeFontStyle : FontStyle;
  currentPage : nat;
  content : list Placed;
  savedAs : option jsstring
}.

(** [new jsPDF()]: one page, helvetica normal at 16 pt. *)
Definition newDoc : jsPDF :=
  {| activeFontSize := 16; activeFontStyle := normal; currentPage := 1;
     content := []; savedAs := None |}.

Definition setFontSize (n : Z) (d : jsPDF) : jsPDF :=
  {| activeFontSize := n; activeFontStyle := activeFontStyle d;
     currentPage := currentPage d; content := content d; savedAs := savedAs d |}.

(** [doc.setFont('helvetica', style)]; the family never changes. *)
Definition setFont (style : FontStyle) (d : jsPDF) : jsPDF :=
  {| activeFontSize := activeFontSize d; activeFontStyle := style;
     currentPage := currentPage d; content := content d; savedAs := savedAs d |}.

Definition addPage (d : jsPDF) : jsPDF :=
  {| activeFontSize := activeFontSize d; activeFontStyle := activeFontStyle d;
     currentPage := S (currentPage d); content := content d; savedAs := savedAs d |}.

Definition docText (line : jsstring) (x y : Z) (d : jsPDF) : jsPDF :=
  {| activeFontSize := activeFontSize d; activeFontStyle := activeFontStyle d;
     currentPage := currentPage d;
     content := content d ++
       [{| p_page := currentPage d; p_size := activeFontSize d;
           p_style := activeFontStyle d; p_text := line; p_x := x; p_y := y |}];
     savedAs := savedAs d |}.

Definition save (name : jsstring) (d : jsPDF) : jsPDF :=
  {| activeFontSize := activeFontSize d; activeFontStyle := activeFontStyle d;
     currentPage := currentPage d; content := content d; savedAs := Some name |}.

(** Array.prototype.forEach with the element index. *)
Fixpoint forEachFrom {A St : Type} (f : A -> nat -> St -> St) (i : nat)
    (l : list A) (s : St) : St :=
  match l with
  | [] => s
  | a :: r => forEachFrom f (S i) r (f a i s)
  end.

Definition forEach {A St : Type} (f : A -> nat -> St -> St) (l : list A) (s : St) : St :=
  forEachFrom f 0 l s.

(** The state of [handleDownloadPDF]: the document and the cursor. *)
Record Pdf := { doc : jsPDF; yPos : Z }.

Definition lineHeight : Z := 7.
Definition margin : Z := 20.

Notation "p |> f" := (f p) (at level 45, left associativity, only parsing).

(** ** handleDownloadPDF *)
Section Report.

(** [doc.splitTextToSize(text, maxWidth)] under the active font size and
    style.  [maxWidth] is the page width less both margins, a constant of the
    document; the wrapping itself is jsPDF's. *)
Variable splitTextToSize : Z -> FontStyle -> jsstring -> list jsstring.

(** [new Date().toLocaleString()] at the time of the export. *)
Variable generated : jsstring.

(** The callback of [lines.forEach] in [addText]. *)
Definition placeLine (line : jsstring) (p : Pdf) : Pdf :=
  let p := if (yPos p >? 270)%Z
           then {| doc := addPage (doc p); yPos := 20 |}
           else p in
  {| doc := docText line margin (yPos p) (doc p);
     yPos := (yPos p + lineHeight)%Z |}.

Definition addText (text : jsstring) (fontSize : Z) (isBold : bool) (p : Pdf) : Pdf :=
  let d := doc p |> setFontSize fontSize
                 |> setFont (if isBold then bold else normal) in
  let lines := splitTextToSize (activeFontSize d) (activeFontStyle d) text in
  forEach (fun line _ => placeLine line) lines {| doc := d; yPos := yPos p |}.

Definition addSection (title : jsstring) (p : Pdf) : Pdf :=
  let p := if (yPos p >? 250)%Z
           then {| doc := addPage (doc p); yPos := 20 |}
           else p in
  let p := {| doc := doc p; yPos := (yPos p + 5)%Z |} in
  let p := addText title 14 true p in
  {| doc := doc p; yPos := (yPos p + 2)%Z |}.

(** Title and date. *)
Definition pdfHeader : Pdf :=
  let yPos := 20%Z in
  let d := newDoc |> setFontSize 20 |> setFont bold
                  |> docText (lit "Text Analysis Report") margin yPos in
  let yPos := (yPos + 15)%Z in
  let d := d |> setFontSize 10 |> setFont normal
             |> docText (lit "Generated: " ++ generated) margin yPos in
  let yPos := (yPos + 15)%Z in
  {| doc := d; yPos := yPos |}.

Definition pdfInputText (text : jsstring) (p : Pdf) : Pdf :=
  p |> addSection (lit "INPUT TEXT")
    |> addText text 11 false.

Definition pdfTextStatistics (result : AnalysisResult) (p : Pdf) : Pdf :=
  p |> addSection (lit "TEXT STATISTICS")
    |> addText (lit "Words: " ++ numToString (word_count (text_stats result))) 12 false
    |> addText (lit "Sentences: " ++ numToString (sentence_count (text_stats result))) 12 false
    |> addText (lit "Average Words per Sentence: "
                ++ numToString (avg_sentence_length (text_stats result))) 12 false
    |> addText (lit "Average Word Length: "
                ++ numToString (avg_word_length (text_stats result))) 12 false
    |> addText (lit "Characters: " ++ numToString (character_count (text_stats result))) 12 false.

Definition pdfReadability (result : AnalysisResult) (p : Pdf) : Pdf :=
  p |> addSection (lit "READABILITY SCORE")
    |> addText (lit "Flesch-Kincaid Grade Level: "
                ++ numToString (flesch_kincaid_grade (readability result))) 12 false
    |> addText (lit "Reading Level: " ++ reading_level (readability result)) 12 false
    |> addText (lit "Description: " ++ description (readability result)) 12 false.

(** [words.length > 0 ? words.join(', ') : 'None'] *)
Definition tenseLine (words : list jsstring) : jsstring :=
  if (0 <? List.length words)%nat then join (lit ", ") words else lit "None".

Definition pdfTenseAnalysis (result : AnalysisResult) (p : Pdf) : Pdf :=
  p |> addSection (lit "TENSE ANALYSIS")
    |> addText (lit "Past Tense: " ++ tenseLine (past (tense_analysis result))) 12 false
    |> addText (lit "Present Tense: " ++ tenseLine (present (tense_analysis result))) 12 false
    |> addText (lit "Future Tense: " ++ tenseLine (future (tense_analysis result))) 12 false.

Definition pdfPassiveVoice (result : AnalysisResult) (p : Pdf) : Pdf :=
  let p := addSection (lit "PASSIVE VOICE DETECTION") p in
  if (0 <? List.length (passive_sentences result))%nat then
    p |> addText (lit "Found " ++ ofNat (List.length (passive_sentences result))
                  ++ lit " sentence(s) with passive voice:") 12 false
      |> forEach (fun sentence i =>
                    addText (ofNat (i + 1) ++ lit ". " ++ sentence) 12 false)
                 (passive_sentences result)
  else
    p |> addText (lit "No passive voice sentences detected.") 12 false.

Definition pdfWordFrequency (result : AnalysisResult) (p : Pdf) : Pdf :=
  p |> addSection (lit "WORD FREQUENCY (TOP 10)")
    |> forEach (fun item i =>
                  addText (ofNat (i + 1) ++ lit ". " ++ word item ++ lit ": "
                           ++ numToString (count item)) 12 false)
               (word_frequency result).

(** [if (words?.length > 0) addText(`Label (${words.length}): ${words.join(', ')}`)] *)
Definition pdfCategory (label : jsstring) (words : option (list jsstring))
    (p : Pdf) : Pdf :=
  match words with
  | Some l =>
    if (0 <? List.length l)%nat
    then addText (label ++ lit " (" ++ ofNat (List.length l) ++ lit "): "
                  ++ join (lit ", ") l) 12 false p
    else p
  | None => p
  end.

Definition pdfPartsOfSpeech (result : AnalysisResult) (p : Pdf) : Pdf :=
  p |> addSection (lit "PARTS OF SPEECH")
    |> pdfCategory (lit "Nouns") (nouns (parts_of_speech result))
    |> pdfCategory (lit "Verbs") (verbs (parts_of_speech result))
    |> pdfCategory (lit "Adjectives") (adjectives (parts_of_speech result))
    |> pdfCategory (lit "Adverbs") (adverbs (parts_of_speech result))
    |> pdfCategory (lit "Pronouns") (pronouns (parts_of_speech result))
    |> pdfCategory (lit "Prepositions") (prepositions (parts_of_speech result))
    |> pdfCategory (lit "Conjunctions") (conjunctions (parts_of_speech result)).

(** The body of [handleDownloadPDF] for the [text] and [result] of the
    render it was created in. *)
Definition downloadPDF (text : jsstring) (result : AnalysisResult) : Pdf :=
  let p := pdfHeader
    |> pdfInputText text
    |> pdfTextStatistics result
    |> pdfReadability result
    |> pdfTenseAnalysis result
    |> pdfPassiveVoice result
    |> pdfWordFrequency result
    |> pdfPartsOfSpeech result in
  {| doc := save (lit "text-analysis-report.pdf") (doc p); yPos := yPos p |}.

(** The button is rendered only under [result && ...]; on a null result the
    handler throws at its first property access and nothing is saved. *)
Definition handleDownloadPDF (s : AppState) : option Pdf :=
  match result s with
  | Some r => Some (downloadPDF (text s) r)
  | None => None
  end.

End Report.

(** ** Specification-side vocabulary *)

(** The request state of the specification, read off the hooks: the loading
    flag first (it is what the Analyze control shows), then the error
    banner, then the results panel. *)
Inductive RequestState :=
| Idle
| Loading
| Success (r : AnalysisResult)
| Error (message : jsstring).

Definition requestState (s : AppState) : RequestState :=
  if loading s then Loading
  else if truthy (error s) then Error (error s)
  else match result s with
       | Some r => Success r
       | None => Idle
       end.

(** The flag and the pending calls agree, and nothing is stored while a
    call is pending. *)
Definition coherent (w : World) : Prop :=
  inFlight w = (if loading (app w) then 1 else 0)%nat
  /\ (loading (app w) = true -> result (app w) = None).

(** The category string each copy button passes to [setCopiedCategory]. *)
Definition categoryOf (b : CopyButton) : jsstring :=
  match b with
  | BtnStats => lit "stats"
  | BtnReadability => lit "readability"
  | BtnPast => lit "past"
  | BtnPresent => lit "present"
  | BtnFuture => lit "future"
  | BtnPassive => lit "passive"
  | BtnWordFreq => lit "wordfreq"
  | BtnNouns => lit "nouns"
  | BtnVerbs => lit "verbs"
  | BtnAdjectives => lit "adjectives"
  | BtnAdverbs => lit "adverbs"
  | BtnPronouns => lit "pronouns"
  | BtnPrepositions => lit "prepositions"
  | BtnConjunctions => lit "conjunctions"
  end.

(** The text last written to the clipboard by a result of [clickCopy]. *)
Definition clipboardText (r : option (AppState * list Effect)) : option jsstring :=
  match r with
  | Some (_, ClipboardWriteText t :: _) => Some t
  | _ => None
  end.

(** What the document shows of a placed line, page and position apart. *)
Definition Printed : Type := Z * FontStyle * jsstring.

Definition printedLine (x : Placed) : Printed := (p_size x, p_style x, p_text x).

Definition printed (p : Pdf) : list Printed := map printedLine (content (doc p)).

(** A property of every two lines placed one after the other. *)
Definition Adjacent (P : Placed -> Placed -> Prop) (l : list Placed) : Prop :=
  forall pre a b post, l = pre ++ a :: b :: post -> P a b.

(** Reading order: a later page, or lower on the same page. *)
Definition readsBefore (a b : Placed) : Prop :=
  (p_page a < p_page b)%nat \/ (p_page a = p_page b /\ (p_y a < p_y b)%Z).

(** Section titles are the lines set at 14 pt. *)
Definition isTitle (a : Placed) : bool := (p_size a =? 14)%Z.

(** A title directly followed by a body line shares its page with it: the
    body line sits one line height and the title spacing below, within the
    content height. *)
Definition keptWithTitle (a b : Placed) : Prop :=
  isTitle a = true -> isTitle b = false ->
  p_page a = p_page b /\ (p_y b = p_y a + lineHeight + 2)%Z /\ (p_y b <= 270)%Z.

(** The line placed last. *)
Definition lastPlaced (p : Pdf) : option Placed := hd_error (rev (content (doc p))).

(** The lines placed so far are in reading order and the cursor is past the
    last of them. *)
Definition cursorBelow (p : Pdf) : Prop :=
  Adjacent readsBefore (content (doc p))
  /\ forall a, lastPlaced p = Some a ->
       (p_page a <= currentPage (doc p))%nat
       /\ (p_page a = currentPage (doc p) -> (p_y a < yPos p)%Z).

(** No title so far has lost its first body line to the next page, and a
    title placed last leaves room for one. *)
Definition titleOpen (p : Pdf) : Prop :=
  Adjacent keptWithTitle (content (doc p))
  /\ forall a, lastPlaced p = Some a -> isTitle a = true ->
       p_page a = currentPage (doc p)
       /\ (yPos p = p_y a + lineHeight + 2)%Z
       /\ (yPos p <= 264)%Z.

Definition sectionTitles : list jsstring :=
  [lit "INPUT TEXT"; lit "TEXT STATISTICS"; lit "READABILITY SCORE";
   lit "TENSE ANALYSIS"; lit "PASSIVE VOICE DETECTION";
   lit "WORD FREQUENCY (TOP 10)"; lit "PARTS OF SPEECH"].

(** A section as the specification has it: a title and body strings, here
    with the font size of the body. *)
Record ReportSection := {
  sec_title : jsstring;
  sec_size : Z;
  sec_lines : list jsstring
}.

Definition numbered {A : Type} (f : nat -> A -> jsstring) (l : list A) : list jsstring :=
  map (fun ia => f (S (fst ia)) (snd ia)) (combine (seq 0 (List.length l)) l).

Definition nonEmpty (words : option (list jsstring)) : bool :=
  match words with
  | Some (_ :: _) => true
  | _ => false
  end.

(** The parts of speech in their fixed order, each with its label. *)
Definition posCategories (pos : PartsOfSpeech) : list (jsstring * option (list jsstring)) :=
  [(lit "Nouns", nouns pos); (lit "Verbs", verbs pos);
   (lit "Adjectives", adjectives pos); (lit "Adverbs", adverbs pos);
   (lit "Pronouns", pronouns pos); (lit "Prepositions", prepositions pos);
   (lit "Conjunctions", conjunctions pos)].

Definition posLine (c : jsstring * option (list jsstring)) : jsstring :=
  let l := match snd c with Some l => l | None => [] end in
  fst c ++ lit " (" ++ ofNat (List.length l) ++ lit "): " ++ join (lit ", ") l.

(** The sections of the report as the specification lists them. *)
Definition inputSection (text : jsstring) : ReportSection :=
  {| sec_title := lit "INPUT TEXT"; sec_size := 11; sec_lines := [text] |}.

Definition statisticsSection (r : AnalysisResult) : ReportSection :=
  {| sec_title := lit "TEXT STATISTICS"; sec_size := 12;
     sec_lines :=
       [lit "Words: " ++ numToString (word_count (text_stats r));
        lit "Sentences: " ++ numToString (sentence_count (text_stats r));
        lit "Average Words per Sentence: "
          ++ numToString (avg_sentence_length (text_stats r));
        lit "Average Word Length: " ++ numToString (avg_word_length (text_stats r));
        lit "Characters: " ++ numToString (character_count (text_stats r))] |}.

Definition readabilitySection (r : AnalysisResult) : ReportSection :=
  {| sec_title := lit "READABILITY SCORE"; sec_size := 12;
     sec_lines :=
       [lit "Flesch-Kincaid Grade Level: "
          ++ numToString (flesch_kincaid_grade (readability r));
        lit "Reading Level: " ++ reading_level (readability r);
        lit "Description: " ++ description (readability r)] |}.

Definition tenseSection (r : AnalysisResult) : ReportSection :=
  {| sec_title := lit "TENSE ANALYSIS"; sec_size := 12;
     sec_lines :=
       map (fun lw => fst lw ++
              match snd lw with [] => lit "None" | ws => join (lit ", ") ws end)
           [(lit "Past Tense: ", past (tense_analysis r));
            (lit "Present Tense: ", present (tense_analysis r));
            (lit "Future Tense: ", future (tense_analysis r))] |}.

Definition passiveSection (r : AnalysisResult) : ReportSection :=
  {| sec_title := lit "PASSIVE VOICE DETECTION"; sec_size := 12;
     sec_lines :=
       match passive_sentences r with
       | [] => [lit "No passive voice sentences detected."]
       | ps => (lit "Found " ++ ofNat (List.length ps)
                ++ lit " sentence(s) with passive voice:")
               :: numbered (fun n s => ofNat n ++ lit ". " ++ s) ps
       end |}.

Definition frequencySection (r : AnalysisResult) : ReportSection :=
  {| sec_title := lit "WORD FREQUENCY (TOP 10)"; sec_size := 12;
     sec_lines :=
       numbered (fun n item => ofNat n ++ lit ". " ++ word item ++ lit ": "
                               ++ numToString (count item))
                (word_frequency r) |}.

(** Parts of speech: one body string for each category that is present and
    non-empty, in the fixed order. *)
Definition posSection (r : AnalysisResult) : ReportSection :=
  {| sec_title := lit "PARTS OF SPEECH"; sec_size := 12;
     sec_lines :=
       map posLine (filter (fun c => nonEmpty (snd c))
                           (posCategories (parts_of_speech r))) |}.

(** The order of the specification: Input Text, Text Statistics, Readability
    Score, Tense Analysis, Passive Voice Detection, Word Frequency, then the
    non-empty parts of speech. *)
Definition reportSections (text : jsstring) (r : AnalysisResult) : list ReportSection :=
  [inputSection text; statisticsSection r; readabilitySection r; tenseSection r;
   passiveSection r; frequencySection r; posSection r].

Definition styleOf (isBold : bool) : FontStyle := if isBold then bold else normal.

(** How a section is set: the title at 14 pt bold, every body string at
    the body size, each wrapped on its own. *)
Section Typesetting.

Variable splitTextToSize : Z -> FontStyle -> jsstring -> list jsstring.

Definition wrap (size : Z) (style : FontStyle) (t : jsstring) : list Printed :=
  map (fun line => (size, style, line)) (splitTextToSize size style t).

Definition typesetSection (sec : ReportSection) : list Printed :=
  wrap 14 bold (sec_title sec)
  ++ flat_map (wrap (sec_size sec) normal) (sec_lines sec).

End Typesetting.

(** Every part of speech is absent or empty. *)
Definition posAllEmpty (pos : PartsOfSpeech) : Prop :=
  forall c, In c (posCategories pos) -> nonEmpty (snd c) = false.

Fixpoint eqb (a b : jsstring) : bool :=
  match a, b with
  | [], [] => true
  | x :: a', y :: b' => (x =? y)%N && eqb a' b'
  | _, _ => false
  end.

(** The body lines of the section with the given title: what follows the
    title line up to the next title. *)
Fixpoint bodyAfter (l : list Placed) : list jsstring :=
  match l with
  | [] => []
  | a :: r => if isTitle a then [] else p_text a :: bodyAfter r
  end.

Fixpoint sectionBody (title : jsstring) (l : list Placed) : list jsstring :=
  match l with
  | [] => []
  | a :: r => if isTitle a && eqb (p_text a) title then bodyAfter r
              else sectionBody title r
  end.

(** ** Sample data *)

(** A splitter for text that always fits the line. *)
Definition noWrap (_ : Z) (_ : FontStyle) (t : jsstring) : list jsstring := [t].

Definition num (s : string) : JsNumber := {| numToString := lit s |}.

Definition sampleText : jsstring := lit "The cat was chased by the dog.".

Definition sampleResult : AnalysisResult :=
  {| text_stats :=
       {| word_count := num "7"; sentence_count := num "1";
          avg_sentence_length := num "7"; avg_word_length := num "3.29";
          character_count := num "30" |};
     readability :=
       {| flesch_kincaid_grade := num "0.6"; reading_level := lit "Elementary";
          description := lit "Very easy to read" |};
     tense_analysis :=
       {| past := [lit "was"; lit "chased"]; present := []; future := [] |};
     passive_sentences := [sampleText];
     word_frequency :=
       [ {| word := lit "the"; count := num "2" |};
         {| word := lit "cat"; count := num "1" |} ];
     parts_of_speech :=
       {| nouns := Some [lit "cat"; lit "dog"]; verbs := Some [lit "chased"];
          adjectives := Some []; adverbs := None; pronouns := None;
          prepositions := Some [lit "by"]; conjunctions := None |} |}.

(** A result with no passive sentence and no part of speech at all. *)
Definition sampleBare : AnalysisResult :=
  {| text_stats := text_stats sampleResult;
     readability := readability sampleResult;
     tense_analysis := {| past := []; present := []; future := [] |};
     passive_sentences := [];
     word_frequency := [];
     parts_of_speech :=
       {| nouns := None; verbs := Some []; adjectives := None; adverbs := Some [];
          pronouns := None; prepositions := None; conjunctions := Some [] |} |}.

Definition sampleDate : jsstring := lit "11/3/2026, 10:00:00 AM".

(** The state after a successful analysis of [sampleText]. *)
Definition sampleSuccess : AppState :=
  {| text := sampleText; result := Some sampleResult; loading := false;
     error := []; copiedCategory := None |}.

(** A request is pending for [sampleText]. *)
Definition sampleLoading : AppState :=
  {| text := sampleText; result := None; loading := true;
     error := []; copiedCategory := None |}.

Definition blankText : jsstring := lit "          ".

(** One letter followed by nine blanks: ten code units, one after trim. *)
Definition paddedText : jsstring := lit "a         ".

(** ** More of the rendered tree *)

(** [CopyIcon]: the check mark when [copiedCategory === category], the
    clipboard glyph otherwise. *)
Inductive Icon := CheckMark | ClipboardGlyph.

Definition CopyIcon (category : jsstring) (s : AppState) : Icon :=
  match copiedCategory s with
  | Some c => if eqb c category then CheckMark else ClipboardGlyph
  | None => ClipboardGlyph
  end.

(** [{error && <div>...{error}...</div>}]: the banner and its text. *)
Definition errorBanner (s : AppState) : option jsstring :=
  if truthy (error s) then Some (error s) else None.

(** [{result && <div>...</div>}]: the results panel with the download and
    copy buttons. *)
Definition resultsPanel (s : AppState) : bool :=
  match result s with
  | Some _ => true
  | None => false
  end.

(** [{!result && !error && <div>Text analysis will appear here...</div>}] *)
Definition emptyState (s : AppState) : bool :=
  negb (resultsPanel s) && negb (truthy (error s)).

(** ** Vocabulary of the further properties *)

(** A text that passes the validation of [handleAnalyze]. *)
Definition sendable (t : jsstring) : Prop :=
  (10 <= List.length t)%nat /\ existsb (fun c => negb (isWhiteSpace c)) t = true.

(** A response that carries a result. *)
Definition isSuccess (e : Event) : bool :=
  match e with
  | Settle (RespondedOk _) => true
  | _ => false
  end.

(** Nothing is displayed or recorded beside the request: the flag and the
    pending calls agree, no result and no error while a call is pending, and
    only sendable texts have been sent. *)
Definition orderly (w : World) : Prop :=
  coherent w
  /\ (loading (app w) = true -> error (app w) = [])
  /\ Forall sendable (requests w).

(** A copied mark has a timer pending, and every pending timer is due
    within 2000 of the clock. *)
Definition timed (w : World) : Prop :=
  (copiedCategory (app w) <> None -> timers w <> [])
  /\ Forall (fun t => (clock w < fst t <= clock w + 2000)%Z) (timers w).

(** Nothing has been copied yet. *)
Definition untouched (w : World) : Prop :=
  result (app w) = None /\ clipboard w = None
  /\ copiedCategory (app w) = None /\ timers w = [].

(** Every line is at the left margin, between the top margin and the
    content height, on a page of the document. *)
Definition inFrame (p : Pdf) : Prop :=
  Forall (fun a => p_x a = margin /\ (20 <= p_y a <= 270)%Z
                   /\ (1 <= p_page a <= currentPage (doc p))%nat)
         (content (doc p))
  /\ (20 <= yPos p)%Z /\ (1 <= currentPage (doc p))%nat.

(** Two lines on one page are a line height apart. *)
Definition spaced (a b : Placed) : Prop :=
  p_page a = p_page b -> (p_y a + lineHeight <= p_y b)%Z.

Definition apart (p : Pdf) : Prop :=
  Adjacent spaced (content (doc p))
  /\ forall a, lastPlaced p = Some a ->
       p_page a = currentPage (doc p) -> (p_y a + lineHeight <= yPos p)%Z.

(** Titles start between 25 and 255. *)
Definition titlesInBand (p : Pdf) : Prop :=
  Forall (fun a => isTitle a = true -> (25 <= p_y a <= 255)%Z) (content (doc p))
  /\ (20 <= yPos p)%Z.

(** From one line to the next the page stays or advances by one, and the
    first line of a page is at 20, or at 25 when it is a title. *)
Definition pageStep (a b : Placed) : Prop :=
  p_page b = p_page a
  \/ (p_page b = S (p_page a)
      /\ (if isTitle b then p_y b = 25%Z else p_y b = 20%Z)).

Definition noBlankPage (p : Pdf) : Prop :=
  Adjacent pageStep (content (doc p))
  /\ forall a, lastPlaced p = Some a -> p_page a = currentPage (doc p).

(** The loop invariant of a body string set at size [fs]. *)
Definition paged (fs : Z) (q : Pdf) : Prop :=
  (titlesInBand q /\ noBlankPage q) /\ activeFontSize (doc q) = fs.

(** The first line of the document is on page 1. *)
Definition startsOnPageOne (p : Pdf) : Prop :=
  exists a rest, content (doc p) = a :: rest /\ p_page a = 1%nat.

(** * Properties *)

(** ** JavaScript strings *)

Lemma trimStart_length (s : jsstring) :
  (List.length (trimStart s) <= List.length s)%nat.
Proof.
  induction s as [|c r IH]; simpl; [lia|].
  destruct (isWhiteSpace c); simpl; lia.
Qed.

Lemma trim_length (s : jsstring) :
  (List.length (trim s) <= List.length s)%nat.
Proof.
  unfold trim, trimEnd.
  rewrite length_rev.
  etransitivity; [apply trimStart_length|].
  rewrite length_rev. apply trimStart_length.
Qed.

Lemma truthy_false (s : jsstring) : truthy s = false <-> s = [].
Proof. destruct s; simpl; split; congruence. Qed.

Lemma or_else_some (s d : jsstring) : s <> [] -> or_else (Some s) d = s.
Proof. destruct s; simpl; congruence. Qed.

(** ** Request lifecycle *)

(** When the validation of [handleAnalyze] lets a text through. *)
Lemma handleAnalyze_dispatches (s : AppState) :
  trim (text s) <> [] -> (10 <= List.length (text s))%nat ->
  handleAnalyze s =
    (setResult None (setError [] (setLoading true s)), [Fetch analyzeUrl (text s)]).
Proof.
  intros Ht Hl. unfold handleAnalyze.
  destruct (truthy (trim (text s))) eqn:E.
  - simpl. destruct (Nat.ltb_spec (List.length (text s)) 10); [lia|reflexivity].
  - apply truthy_false in E. contradiction.
Qed.

(** C1, amended: [handleAnalyze] rejects a text that is blank after trimming
    or has fewer than 10 code units untrimmed; it then only sets the error
    message, requests no effect (no analyze call) and leaves the loading
    flag and the stored result as they were. *)
Theorem handleAnalyze_rejects_blank_or_short (s : AppState) :
  trim (text s) = [] \/ (List.length (text s) < 10)%nat ->
  handleAnalyze s =
    (setError (lit "Please enter at least 10 characters of text") s, [])
  /\ loading (fst (handleAnalyze s)) = loading s
  /\ result (fst (handleAnalyze s)) = result s
  /\ (forall w, app w = s ->
        requests (commit (handleAnalyze s) w) = requests w
        /\ inFlight (commit (handleAnalyze s) w) = inFlight w).
Proof.
  intros H.
  assert (E : handleAnalyze s =
    (setError (lit "Please enter at least 10 characters of text") s, [])).
  { unfold handleAnalyze. destruct H as [H|H].
    - rewrite H. reflexivity.
    - destruct (Nat.ltb_spec (List.length (text s)) 10); [|lia].
      rewrite orb_true_r. reflexivity. }
  rewrite E. repeat split.
Qed.

Lemma handleAnalyze_rejects_witness :
  handleAnalyze (setText (lit "too short") initialState) =
    (setError (lit "Please enter at least 10 characters of text")
       (setText (lit "too short") initialState), []).
Proof.
  apply (handleAnalyze_rejects_blank_or_short (setText (lit "too short") initialState)).
  right. simpl. lia.
Defined.

(** C1 as stated fails: [paddedText] has one code unit after trimming, yet
    the request is dispatched and the loading flag is raised. *)
Lemma handleAnalyze_dispatches_padded_text :
  (List.length (trim paddedText) < 10)%nat
  /\ snd (handleAnalyze (setText paddedText initialState))
     = [Fetch analyzeUrl paddedText]
  /\ loading (fst (handleAnalyze (setText paddedText initialState))) = true
  /\ error (fst (handleAnalyze (setText paddedText initialState))) = [].
Proof. vm_compute. repeat split. lia. Qed.

(** C4, amended: [handleClear] empties the text, the stored result and the
    error message and touches neither the loading flag nor the copied mark;
    the state is Idle afterwards exactly when no request was pending, and
    still Loading otherwise. *)
Theorem handleClear_resets_all_but_loading (s : AppState) :
  text (handleClear s) = []
  /\ result (handleClear s) = None
  /\ error (handleClear s) = []
  /\ loading (handleClear s) = loading s
  /\ copiedCategory (handleClear s) = copiedCategory s
  /\ (loading s = false -> requestState (handleClear s) = Idle)
  /\ (loading s = true -> requestState (handleClear s) = Loading).
Proof.
  unfold requestState; simpl.
  repeat split; intros ->; reflexivity.
Qed.

Lemma handleClear_witness :
  requestState (handleClear sampleSuccess) = Idle
  /\ requestState (handleClear sampleLoading) = Loading.
Proof.
  split.
  - apply (handleClear_resets_all_but_loading sampleSuccess). reflexivity.
  - apply (handleClear_resets_all_but_loading sampleLoading). reflexivity.
Defined.

(** C4 as stated fails from Loading: the flag stays up, and the response
    that arrives later is stored although the user has cleared. *)
Lemma handleClear_keeps_loading :
  requestState sampleLoading = Loading
  /\ requestState (handleClear sampleLoading) <> Idle
  /\ requestState (handleAnalyzeSettled (RespondedOk sampleResult)
                     (handleClear sampleLoading)) = Success sampleResult.
Proof. vm_compute. repeat split. discriminate. Qed.

(** What a click on a rendered copy button amounts to. *)
Lemma clickCopy_shape (b : CopyButton) (s : AppState) (r : AppState * list Effect) :
  clickCopy b s = Some r ->
  exists t, r = (setCopiedCategory (Some (categoryOf b)) s,
                 [ClipboardWriteText t; SetTimeout ClearCopied 2000]).
Proof.
  unfold clickCopy, handleCopyStats, handleCopyReadability, handleCopyPassive,
    handleCopyWordFreq, posButton, tenseButton, handleCopyCategory.
  destruct (result s) as [res|]; [|discriminate].
  destruct b; simpl;
    repeat match goal with
           | |- context [match ?x with Some _ => _ | None => _ end] => destruct x
           | |- context [if ?c then _ else _] => destruct c
           end;
    intros H; inversion H; eexists; reflexivity.
Qed.

Lemma fireDue_app (t : Z) (ts : list (Z * Callback)) (s : AppState) :
  let s' := fst (fireDue t ts s) in
  text s' = text s /\ result s' = result s /\ loading s' = loading s
  /\ error s' = error s.
Proof.
  revert s. induction ts as [|[due cb] rest IH]; intros s; simpl; [tauto|].
  destruct (due <=? t)%Z.
  - destruct (IH (runCallback cb s)) as (A & B & C & D).
    destruct cb; simpl in *. tauto.
  - specialize (IH s). destruct (fireDue t rest s). simpl in *. tauto.
Qed.

Lemma step_coherent (w : World) (e : Event) : coherent w -> coherent (step w e).
Proof.
  unfold coherent. intros [Hn Hr]. destruct e; simpl.
  - tauto.
  - unfold analyzeDisabled.
    destruct (loading (app w)) eqn:L; simpl; [rewrite L; tauto|].
    destruct (List.length (text (app w)) <? 10)%nat eqn:Len; [rewrite L; tauto|].
    unfold handleAnalyze. rewrite Len, orb_false_r.
    destruct (truthy (trim (text (app w)))); simpl.
    + rewrite Hn. tauto.
    + rewrite L. split; [assumption|discriminate].
  - split; [assumption|reflexivity].
  - destruct (clickCopy b (app w)) as [r|] eqn:E; [|tauto].
    apply clickCopy_shape in E. destruct E as [t ->]. simpl. tauto.
  - destruct (inFlight w) as [|n] eqn:N; [simpl; rewrite N; tauto|].
    simpl. split; [|discriminate].
    destruct (loading (app w)); congruence.
  - unfold elapse.
    pose proof (fireDue_app (clock w + Z.max 0 dt) (timers w) (app w)) as H.
    destruct (fireDue (clock w + Z.max 0 dt) (timers w) (app w)) as [s' keep].
    simpl in *. destruct H as (_ & R & L & _). rewrite L, R. tauto.
Qed.

Lemma run_coherent (es : list Event) (w : World) : coherent w -> coherent (run es w).
Proof.
  revert w. induction es as [|e es IH]; intros w H; simpl; [assumption|].
  apply IH, step_coherent, H.
Qed.

Lemma initial_coherent : coherent initialWorld.
Proof. split; [reflexivity|discriminate]. Qed.

(** C2, amended: when [handleAnalyze] is only reached through the Analyze
    control, at most one analyze call is pending after any sequence of
    events, the loading flag is up exactly while one is pending, and a click
    on the control while Loading changes nothing.  The guard is the disabled
    attribute of the control. *)
Theorem at_most_one_in_flight_through_control (es : list Event) :
  (inFlight (run es initialWorld) <= 1)%nat
  /\ inFlight (run es initialWorld)
     = (if loading (app (run es initialWorld)) then 1 else 0)%nat
  /\ (forall w, loading (app w) = true -> step w ClickAnalyze = w).
Proof.
  destruct (run_coherent es initialWorld initial_coherent) as [H _].
  repeat split.
  - rewrite H. destruct (loading _); lia.
  - exact H.
  - intros w L. simpl. unfold analyzeDisabled. rewrite L. reflexivity.
Qed.

Lemma at_most_one_in_flight_witness :
  step (withApp sampleLoading initialWorld) ClickAnalyze
  = withApp sampleLoading initialWorld.
Proof.
  apply (at_most_one_in_flight_through_control []). reflexivity.
Defined.

(** C2 as stated fails: [handleAnalyze] has no guard of its own; run while a
    request is pending it sends the text again. *)
Lemma handleAnalyze_reenters_while_loading :
  let w := commit (handleAnalyze sampleSuccess) (withApp sampleSuccess initialWorld) in
  app w = sampleLoading
  /\ inFlight w = 1%nat
  /\ snd (handleAnalyze (app w)) = [Fetch analyzeUrl sampleText]
  /\ inFlight (commit (handleAnalyze (app w)) w) = 2%nat
  /\ requests (commit (handleAnalyze (app w)) w) = [sampleText; sampleText].
Proof. vm_compute. repeat split. Qed.

(** C9, amended: when a pending analyze call fails (the call or the decoding
    of its body throws, or the response is not ok), no result is stored in
    the resulting state and the loading flag is down.  The error message
    follows four cases: for a response that is not ok, its [detail] when it
    has a non-empty one, else "Analysis failed"; for a thrown error, the
    error's own message when it has a non-empty one, else
    "Failed to connect to server". *)
Theorem failed_analyze_leaves_no_result (es : list Event) (o : FetchOutcome) :
  inFlight (run es initialWorld) <> 0%nat ->
  (forall data, o <> RespondedOk data) ->
  let s' := app (step (run es initialWorld) (Settle o)) in
  result s' = None
  /\ loading s' = false
  /\ (forall d, o = RespondedError (Some d) -> d <> [] -> error s' = d)
  /\ (o = RespondedError None \/ o = RespondedError (Some []) ->
      error s' = lit "Analysis failed")
  /\ (forall m, o = Rejected (Some m) -> m <> [] -> error s' = m)
  /\ (o = Rejected None \/ o = Rejected (Some []) ->
      error s' = lit "Failed to connect to server").
Proof.
  intros Hn Ho.
  destruct (run_coherent es initialWorld initial_coherent) as [Hc Hr].
  set (w := run es initialWorld) in *.
  assert (L : loading (app w) = true).
  { destruct (loading (app w)); [reflexivity|contradiction]. }
  specialize (Hr L).
  simpl. destruct (inFlight w) as [|n]; [contradiction|]. simpl.
  destruct o as [m|data|d]; simpl.
  - split; [assumption|]. split; [reflexivity|].
    split; [discriminate|]. split; [intros [E|E]; discriminate|].
    split.
    + intros m' E Hm. inversion E; subst. now apply or_else_some.
    + intros [E|E]; inversion E; reflexivity.
  - exfalso. now apply (Ho data).
  - split; [assumption|]. split; [reflexivity|].
    split; [|split; [|split; [discriminate|intros [E|E]; discriminate]]].
    + intros d' E Hd. inversion E; subst.
      destruct d' as [|c d']; [contradiction|reflexivity].
    + intros [E|E]; inversion E; reflexivity.
Qed.

Lemma failed_analyze_witness :
  let w := run [Input sampleText; ClickAnalyze; Settle (RespondedOk sampleResult);
                ClickAnalyze] initialWorld in
  let s' := app (step w (Settle (RespondedError (Some (lit "Text too long"))))) in
  result s' = None /\ loading s' = false /\ error s' = lit "Text too long".
Proof.
  pose proof (failed_analyze_leaves_no_result
    [Input sampleText; ClickAnalyze; Settle (RespondedOk sampleResult); ClickAnalyze]
    (RespondedError (Some (lit "Text too long")))) as H.
  destruct H as (R & L & D & _).
  - vm_compute. discriminate.
  - intros data. discriminate.
  - cbv zeta. split; [exact R|]. split; [exact L|].
    apply D; [reflexivity|vm_compute; discriminate].
Defined.

(** C9 as stated fails in its message rule: when the call itself throws,
    there is no detail, and the message shown is the text of the thrown
    error, not one of the two fallbacks of the component.  The result is
    cleared all the same. *)
Lemma thrown_error_shows_its_own_message :
  let w := run [Input sampleText; ClickAnalyze] initialWorld in
  let s' := app (step w (Settle (Rejected (Some (lit "Failed to fetch"))))) in
  inFlight w = 1%nat
  /\ requestState s' = Error (lit "Failed to fetch")
  /\ error s' <> lit "Analysis failed"
  /\ error s' <> lit "Failed to connect to server"
  /\ result s' = None.
Proof. vm_compute. repeat split; discriminate. Qed.

(** The validation branch is another matter: it stores the message and
    leaves a result of an earlier analysis in place.  Ten blanks pass the
    disabled test of the control and fail the validation. *)
Lemma validation_error_keeps_result :
  let w := run [Input sampleText; ClickAnalyze; Settle (RespondedOk sampleResult);
                Input blankText; ClickAnalyze] initialWorld in
  result (app w) = Some sampleResult
  /\ error (app w) = lit "Please enter at least 10 characters of text"
  /\ requests w = [sampleText].
Proof. vm_compute. repeat split. Qed.

(** ** Copy acknowledgement *)

Lemma clickCopy_after (b : CopyButton) (s s' : AppState) :
  result s' = result s -> clickCopy b s <> None -> clickCopy b s' <> None.
Proof.
  unfold clickCopy, handleCopyStats, handleCopyReadability, handleCopyPassive,
    handleCopyWordFreq, posButton, tenseButton.
  intros ->. destruct (result s); [|tauto].
  destruct b; simpl;
    repeat match goal with
           | |- context [match ?x with Some _ => _ | None => _ end] => destruct x
           | |- context [if ?c then _ else _] => destruct c
           end; congruence.
Qed.

Lemma step_ClickCopy (w : World) (b : CopyButton) :
  clickCopy b (app w) <> None ->
  exists t, step w (ClickCopy b) =
    {| app := setCopiedCategory (Some (categoryOf b)) (app w);
       inFlight := inFlight w; requests := requests w; clipboard := Some t;
       clock := clock w;
       timers := timers w ++ [((clock w + 2000)%Z, ClearCopied)] |}.
Proof.
  intros H. cbn [step].
  destruct (clickCopy b (app w)) as [r|] eqn:E; [|contradiction].
  destruct (clickCopy_shape _ _ _ E) as [t ->].
  exists t. reflexivity.
Qed.

(** C3, amended: every copy action starts a timer of its own and none is
    ever cancelled.  With no other timer pending, after a copy of A and,
    d < 2000 later, a copy of B, the mark is B until 2000 after the copy of
    A; from then on it is cleared, by the timer of A, before the timer of B
    is due. *)
Theorem copy_mark_cleared_by_first_timer (w : World) (a b : CopyButton) (d : Z) :
  timers w = [] ->
  clickCopy a (app w) <> None ->
  clickCopy b (app w) <> None ->
  (0 <= d < 2000)%Z ->
  let w' := run [ClickCopy a; Elapse d; ClickCopy b] w in
  copiedCategory (app w') = Some (categoryOf b)
  /\ timers w' = [((clock w + 2000)%Z, ClearCopied);
                  ((clock w + d + 2000)%Z, ClearCopied)]
  /\ (forall e, (0 <= e < 2000 - d)%Z ->
        copiedCategory (app (step w' (Elapse e))) = Some (categoryOf b))
  /\ (forall e, (2000 - d <= e)%Z ->
        copiedCategory (app (step w' (Elapse e))) = None).
Proof.
  intros Ht Ha Hb Hd. cbv zeta. unfold run. cbn [fold_left].
  destruct (step_ClickCopy w a Ha) as [ta ->]. rewrite Ht. cbn [List.app].
  match goal with |- context [step ?x (Elapse d)] => set (w1 := x) end.
  assert (E : step w1 (Elapse d) =
    {| app := app w1; inFlight := inFlight w1; requests := requests w1;
       clipboard := clipboard w1; clock := (clock w + d)%Z;
       timers := timers w1 |}).
  { unfold w1. cbn [step]. unfold elapse. cbn [app clock timers fireDue].
    rewrite Z.max_r by lia.
    destruct (Z.leb_spec (clock w + 2000) (clock w + d)); [lia|reflexivity]. }
  rewrite E. clear E.
  match goal with |- context [step ?x (ClickCopy b)] => set (w2 := x) end.
  assert (Hb' : clickCopy b (app w2) <> None).
  { apply clickCopy_after with (s := app w); [reflexivity|assumption]. }
  destruct (step_ClickCopy w2 b Hb') as [tb ->].
  unfold w2, w1.
  cbn [app inFlight requests clipboard clock timers List.app copiedCategory
       setCopiedCategory].
  split; [reflexivity|].
  split; [reflexivity|].
  split; intros e He; cbn [step]; unfold elapse;
    cbn [app clock timers fireDue].
  - rewrite Z.max_r by lia.
    destruct (Z.leb_spec (clock w + 2000) (clock w + d + e)); [lia|].
    destruct (Z.leb_spec (clock w + d + 2000) (clock w + d + e)); [lia|].
    reflexivity.
  - destruct (Z.leb_spec (clock w + 2000) (clock w + d + Z.max 0 e)); [|lia].
    destruct (Z.leb_spec (clock w + d + 2000) (clock w + d + Z.max 0 e));
      reflexivity.
Qed.

Lemma copy_mark_witness :
  let w' := run [ClickCopy BtnStats; Elapse 1000; ClickCopy BtnPast]
                (withApp sampleSuccess initialWorld) in
  copiedCategory (app w') = Some (lit "past")
  /\ copiedCategory (app (step w' (Elapse 999))) = Some (lit "past")
  /\ copiedCategory (app (step w' (Elapse 1000))) = None.
Proof.
  pose proof (copy_mark_cleared_by_first_timer
    (withApp sampleSuccess initialWorld) BtnStats BtnPast 1000) as H.
  destruct H as (A & _ & B & C).
  - reflexivity.
  - vm_compute. discriminate.
  - vm_compute. discriminate.
  - lia.
  - cbv zeta. split; [exact A|]. split; [apply B; lia|apply C; lia].
Defined.

(** C3 as stated fails: B is copied 1000 after A; 1500 later the timer of B
    is not yet due, but the mark has been cleared by the timer of A, which
    was never cancelled. *)
Lemma first_timer_clears_second_copy :
  let w' := run [ClickCopy BtnStats; Elapse 1000; ClickCopy BtnPast]
                (withApp sampleSuccess initialWorld) in
  copiedCategory (app w') = Some (lit "past")
  /\ clipboard w' = Some (lit "was, chased")
  /\ timers w' = [(2000%Z, ClearCopied); (3000%Z, ClearCopied)]
  /\ clock (step w' (Elapse 1500)) = 2500%Z
  /\ copiedCategory (app (step w' (Elapse 1500))) = None
  /\ timers (step w' (Elapse 1500)) = [(3000%Z, ClearCopied)].
Proof. vm_compute. repeat split. Qed.

(** ** Copy text *)

(** C8, amended: a tense category that is empty has no copy button, so
    nothing is written to the clipboard for it ([handleCopyCategory] on the
    empty array would give the empty string; "None" is what the exported
    report prints).  A non-empty tense category is copied as its words
    joined by a comma and a space. *)
Theorem tense_copy_text (s : AppState) (r : AnalysisResult) :
  result s = Some r ->
  (future (tense_analysis r) = [] ->
     clickCopy BtnFuture s = None
     /\ copyTextOf (WArray (future (tense_analysis r))) = []
     /\ tenseLine (future (tense_analysis r)) = lit "None")
  /\ (past (tense_analysis r) <> [] ->
      clipboardText (clickCopy BtnPast s)
      = Some (join (lit ", ") (past (tense_analysis r))))
  /\ (present (tense_analysis r) <> [] ->
      clipboardText (clickCopy BtnPresent s)
      = Some (join (lit ", ") (present (tense_analysis r))))
  /\ (future (tense_analysis r) <> [] ->
      clipboardText (clickCopy BtnFuture s)
      = Some (join (lit ", ") (future (tense_analysis r)))).
Proof.
  intros Hr. unfold clickCopy, tenseButton. rewrite Hr.
  repeat split.
  - rewrite H. reflexivity.
  - rewrite H. reflexivity.
  - rewrite H. reflexivity.
  - destruct (past (tense_analysis r)); [contradiction|reflexivity].
  - destruct (present (tense_analysis r)); [contradiction|reflexivity].
  - destruct (future (tense_analysis r)); [contradiction|reflexivity].
Qed.

Lemma tense_copy_witness :
  clickCopy BtnFuture sampleSuccess = None
  /\ clipboardText (clickCopy BtnPast sampleSuccess) = Some (lit "was, chased").
Proof.
  destruct (tense_copy_text sampleSuccess sampleResult eq_refl) as (F & P & _).
  split.
  - apply F. reflexivity.
  - apply P. vm_compute. discriminate.
Defined.

(** C8 as stated fails: with no future tense verbs the clipboard never
    receives "None"; the button is absent and the handler itself would
    write the empty string. *)
Lemma empty_future_tense_not_copied_as_None :
  future (tense_analysis sampleResult) = []
  /\ clipboardText (clickCopy BtnFuture sampleSuccess) = None
  /\ clipboardText (Some (handleCopyCategory (lit "future")
                            (WArray (future (tense_analysis sampleResult)))
                            sampleSuccess)) = Some []
  /\ [] <> lit "None".
Proof. vm_compute. repeat split. discriminate. Qed.

(** ** The exported report *)

Lemma forEachFrom_invariant {A St : Type} (I : St -> Prop)
    (f : A -> nat -> St -> St) (l : list A) :
  (forall a i s, I s -> I (f a i s)) ->
  forall i s, I s -> I (forEachFrom f i l s).
Proof.
  intros Hf. induction l as [|a r IH]; intros i s Hs; simpl; [assumption|].
  apply IH, Hf, Hs.
Qed.

Lemma Adjacent_snoc (P : Placed -> Placed -> Prop) (l : list Placed) (b : Placed) :
  Adjacent P l ->
  (forall a, hd_error (rev l) = Some a -> P a b) ->
  Adjacent P (l ++ [b]).
Proof.
  intros Hl Hb pre a b' post E.
  destruct (exists_last (l := a :: b' :: post)) as (m & x & Em); [discriminate|].
  destruct post as [|c post].
  - replace (pre ++ [a; b']) with ((pre ++ [a]) ++ [b']) in E
      by (rewrite <- app_assoc; reflexivity).
    apply app_inj_tail in E. destruct E as [-> ->].
    apply Hb. rewrite rev_app_distr. reflexivity.
  - destruct (exists_last (l := c :: post)) as (post' & y & Ep); [discriminate|].
    rewrite Ep in E.
    replace (pre ++ a :: b' :: post' ++ [y])
      with ((pre ++ a :: b' :: post') ++ [y]) in E
      by (rewrite <- app_assoc; reflexivity).
    apply app_inj_tail in E. destruct E as [-> _].
    apply (Hl pre a b' post'). reflexivity.
Qed.

Lemma Adjacent_two (P : Placed -> Placed -> Prop) (a b : Placed) :
  P a b -> Adjacent P [a; b].
Proof.
  intros H pre x y post E.
  destruct pre as [|p pre].
  - inversion E; subst. exact H.
  - destruct pre as [|q pre]; [discriminate|].
    destruct pre; discriminate.
Qed.

Section ReportProperties.

Variable splitTextToSize : Z -> FontStyle -> jsstring -> list jsstring.
Variable generated : jsstring.

(** *** What is printed, in which order *)

Lemma printed_placeLines (lines : list jsstring) :
  forall i p,
    printed (forEachFrom (fun line _ => placeLine line) i lines p)
    = printed p
      ++ map (fun line => (activeFontSize (doc p), activeFontStyle (doc p), line)) lines.
Proof.
  induction lines as [|l r IH]; intros i p; simpl.
  - now rewrite app_nil_r.
  - rewrite IH. unfold placeLine, printed.
    destruct (yPos p >? 270)%Z; simpl; rewrite map_app, <- app_assoc; reflexivity.
Qed.

Lemma printed_addText (t : jsstring) (fs : Z) (b : bool) (p : Pdf) :
  printed (addText splitTextToSize t fs b p) = printed p ++ wrap splitTextToSize fs (styleOf b) t.
Proof.
  unfold addText, forEach. rewrite printed_placeLines. reflexivity.
Qed.

Lemma printed_addSection (t : jsstring) (p : Pdf) :
  printed (addSection splitTextToSize t p) = printed p ++ wrap splitTextToSize 14 bold t.
Proof.
  unfold addSection. unfold printed at 1. simpl.
  fold (printed (addText splitTextToSize t 14 true
    {| doc := doc (if (yPos p >? 250)%Z
                   then {| doc := addPage (doc p); yPos := 20 |} else p);
       yPos := yPos (if (yPos p >? 250)%Z
                     then {| doc := addPage (doc p); yPos := 20 |} else p) + 5 |})).
  rewrite printed_addText. destruct (yPos p >? 250)%Z; reflexivity.
Qed.

Lemma printed_forEach_addText {A : Type} (g : A -> nat -> jsstring) (fs : Z)
    (b : bool) (l : list A) :
  forall i p,
    printed (forEachFrom (fun x i => addText splitTextToSize (g x i) fs b) i l p)
    = printed p
      ++ flat_map (fun ix => wrap splitTextToSize fs (styleOf b) (g (snd ix) (fst ix)))
                  (combine (seq i (List.length l)) l).
Proof.
  induction l as [|x r IH]; intros i p; simpl.
  - now rewrite app_nil_r.
  - rewrite IH, printed_addText, <- app_assoc. reflexivity.
Qed.

Lemma flat_map_numbered {A : Type} (f : nat -> A -> jsstring)
    (h : jsstring -> list Printed) (l : list A) :
  flat_map h (numbered f l)
  = flat_map (fun ix => h (f (fst ix + 1)%nat (snd ix)))
             (combine (seq 0 (List.length l)) l).
Proof.
  unfold numbered. generalize (combine (seq 0 (List.length l)) l) as c.
  induction c as [|[i x] c IH]; simpl; [reflexivity|].
  rewrite IH, Nat.add_1_r. reflexivity.
Qed.

Lemma printed_pdfCategory (label : jsstring) (words : option (list jsstring)) (p : Pdf) :
  printed (pdfCategory splitTextToSize label words p)
  = printed p
    ++ (if nonEmpty words then wrap splitTextToSize 12 normal (posLine (label, words)) else []).
Proof.
  unfold pdfCategory, posLine.
  destruct words as [[|w ws]|]; simpl; try now rewrite app_nil_r.
  rewrite printed_addText. reflexivity.
Qed.

Lemma flat_map_filter {A B C : Type} (f : B -> list C) (g : A -> B)
    (h : A -> bool) (l : list A) :
  flat_map f (map g (filter h l))
  = flat_map (fun c => if h c then f (g c) else []) l.
Proof.
  induction l as [|a r IH]; simpl; [reflexivity|].
  destruct (h a); simpl; now rewrite IH.
Qed.

Lemma tenseLine_cases (words : list jsstring) :
  tenseLine words
  = match words with [] => lit "None" | w :: ws => join (lit ", ") (w :: ws) end.
Proof. destruct words; reflexivity. Qed.

Lemma printed_save (name : jsstring) (p : Pdf) :
  printed {| doc := save name (doc p); yPos := yPos p |} = printed p.
Proof. reflexivity. Qed.

Lemma printed_pdfPassiveVoice (r : AnalysisResult) (p : Pdf) :
  printed (pdfPassiveVoice splitTextToSize r p)
  = printed p ++ typesetSection splitTextToSize (passiveSection r).
Proof.
  unfold pdfPassiveVoice, typesetSection, passiveSection.
  cbn [sec_title sec_size sec_lines].
  destruct (passive_sentences r) as [|s ss] eqn:E.
  - cbn [List.length Nat.ltb Nat.leb flat_map].
    rewrite printed_addText, printed_addSection, app_nil_r, <- app_assoc.
    reflexivity.
  - rewrite <- E.
    replace (0 <? List.length (passive_sentences r))%nat with true
      by (rewrite E; reflexivity).
    unfold forEach. rewrite printed_forEach_addText, printed_addText, printed_addSection.
    cbn [flat_map]. rewrite flat_map_numbered, <- !app_assoc. reflexivity.
Qed.

Lemma printed_pdfInputText (text : jsstring) (p : Pdf) :
  printed (pdfInputText splitTextToSize text p)
  = printed p ++ typesetSection splitTextToSize (inputSection text).
Proof.
  unfold pdfInputText, typesetSection, inputSection.
  cbn [sec_title sec_size sec_lines flat_map].
  rewrite printed_addText, printed_addSection, app_nil_r, <- app_assoc.
  reflexivity.
Qed.

Lemma printed_pdfTextStatistics (r : AnalysisResult) (p : Pdf) :
  printed (pdfTextStatistics splitTextToSize r p)
  = printed p ++ typesetSection splitTextToSize (statisticsSection r).
Proof.
  unfold pdfTextStatistics, typesetSection, statisticsSection.
  cbn [sec_title sec_size sec_lines flat_map].
  rewrite !printed_addText, printed_addSection, app_nil_r, <- !app_assoc.
  reflexivity.
Qed.

Lemma printed_pdfReadability (r : AnalysisResult) (p : Pdf) :
  printed (pdfReadability splitTextToSize r p)
  = printed p ++ typesetSection splitTextToSize (readabilitySection r).
Proof.
  unfold pdfReadability, typesetSection, readabilitySection.
  cbn [sec_title sec_size sec_lines flat_map].
  rewrite !printed_addText, printed_addSection, app_nil_r, <- !app_assoc.
  reflexivity.
Qed.

Lemma printed_pdfTenseAnalysis (r : AnalysisResult) (p : Pdf) :
  printed (pdfTenseAnalysis splitTextToSize r p)
  = printed p ++ typesetSection splitTextToSize (tenseSection r).
Proof.
  unfold pdfTenseAnalysis, typesetSection, tenseSection.
  cbn [sec_title sec_size sec_lines flat_map map fst snd].
  rewrite !printed_addText, printed_addSection, !tenseLine_cases,
    app_nil_r, <- !app_assoc.
  reflexivity.
Qed.

Lemma printed_pdfWordFrequency (r : AnalysisResult) (p : Pdf) :
  printed (pdfWordFrequency splitTextToSize r p)
  = printed p ++ typesetSection splitTextToSize (frequencySection r).
Proof.
  unfold pdfWordFrequency, typesetSection, frequencySection, forEach.
  cbn [sec_title sec_size sec_lines].
  rewrite printed_forEach_addText, printed_addSection, flat_map_numbered,
    <- app_assoc.
  reflexivity.
Qed.

Lemma printed_pdfPartsOfSpeech (r : AnalysisResult) (p : Pdf) :
  printed (pdfPartsOfSpeech splitTextToSize r p)
  = printed p ++ typesetSection splitTextToSize (posSection r).
Proof.
  unfold pdfPartsOfSpeech, typesetSection, posSection.
  cbn [sec_title sec_size sec_lines].
  rewrite !printed_pdfCategory, printed_addSection, flat_map_filter.
  cbn [posCategories flat_map snd].
  rewrite app_nil_r, <- !app_assoc. reflexivity.
Qed.

Lemma printed_downloadPDF (text : jsstring) (r : AnalysisResult) :
  printed (downloadPDF splitTextToSize generated text r)
  = [(20%Z, bold, lit "Text Analysis Report");
     (10%Z, normal, lit "Generated: " ++ generated)]
    ++ flat_map (typesetSection splitTextToSize) (reportSections text r).
Proof.
  unfold downloadPDF. cbv zeta. rewrite printed_save.
  rewrite printed_pdfPartsOfSpeech, printed_pdfWordFrequency,
    printed_pdfPassiveVoice, printed_pdfTenseAnalysis, printed_pdfReadability,
    printed_pdfTextStatistics, printed_pdfInputText.
  cbn [reportSections flat_map]. rewrite app_nil_r, <- !app_assoc.
  reflexivity.
Qed.

(** *** Invariants of the layout *)

Ltac title_in := unfold sectionTitles; repeat first [left; reflexivity | right].

Section Invariant.

Variable I : Pdf -> Prop.
Hypothesis I_header : I (pdfHeader generated).
Hypothesis I_body : forall t fs p, fs <> 14%Z -> I p ->
  I (addText splitTextToSize t fs false p).
Hypothesis I_title : forall t p, In t sectionTitles -> I p ->
  I (addSection splitTextToSize t p).

Lemma I_pdfCategory (label : jsstring) (words : option (list jsstring)) (p : Pdf) :
  I p -> I (pdfCategory splitTextToSize label words p).
Proof.
  intros H. unfold pdfCategory.
  destruct words as [l|]; [|assumption].
  destruct (0 <? List.length l)%nat; [|assumption].
  apply I_body; [discriminate|assumption].
Qed.

(** Whatever holds of the header and is kept by every body string and every
    section title holds of the document that is saved. *)
Lemma report_invariant (text : jsstring) (r : AnalysisResult) :
  exists p, I p /\ content (doc (downloadPDF splitTextToSize generated text r))
                   = content (doc p).
Proof.
  eexists. split; [|unfold downloadPDF; cbv zeta; cbn [doc save content]; reflexivity].
  unfold pdfPartsOfSpeech, pdfWordFrequency, pdfPassiveVoice, pdfTenseAnalysis,
    pdfReadability, pdfTextStatistics, pdfInputText, forEach.
  repeat apply I_pdfCategory.
  apply I_title; [title_in|].
  apply forEachFrom_invariant; [intros; apply I_body; [discriminate|assumption]|].
  apply I_title; [title_in|].
  set (q := addSection splitTextToSize (lit "PASSIVE VOICE DETECTION") _).
  assert (P : I q).
  { unfold q.
    repeat first [ apply I_body; [discriminate|]
                 | apply I_title; [title_in|] ].
    exact I_header. }
  clearbody q.
  destruct (0 <? List.length (passive_sentences r))%nat.
  - apply forEachFrom_invariant; [intros; apply I_body; [discriminate|assumption]|].
    apply I_body; [discriminate|exact P].
  - apply I_body; [discriminate|exact P].
Qed.

End Invariant.
(** Reading order. *)

Lemma cursorBelow_font (p : Pdf) (d : jsPDF) :
  content d = content (doc p) -> currentPage d = currentPage (doc p) ->
  cursorBelow p -> cursorBelow {| doc := d; yPos := yPos p |}.
Proof.
  unfold cursorBelow, lastPlaced. simpl. intros -> ->. tauto.
Qed.

Lemma cursorBelow_down (p : Pdf) (k : Z) :
  (0 <= k)%Z -> cursorBelow p -> cursorBelow {| doc := doc p; yPos := yPos p + k |}.
Proof.
  unfold cursorBelow, lastPlaced. simpl. intros Hk [A L]. split; [assumption|].
  intros a Ha. destruct (L a Ha) as [L1 L2]. split; [assumption|].
  intros E. specialize (L2 E). lia.
Qed.

Lemma cursorBelow_break (p : Pdf) (y : Z) :
  cursorBelow p -> cursorBelow {| doc := addPage (doc p); yPos := y |}.
Proof.
  unfold cursorBelow, lastPlaced. simpl. intros [A L]. split; [assumption|].
  intros a Ha. destruct (L a Ha) as [L1 _]. split; lia.
Qed.

Lemma cursorBelow_placeLine (line : jsstring) (p : Pdf) :
  cursorBelow p -> cursorBelow (placeLine line p).
Proof.
  intros H. unfold placeLine.
  assert (H' : cursorBelow (if (yPos p >? 270)%Z
                            then {| doc := addPage (doc p); yPos := 20 |} else p)).
  { destruct (yPos p >? 270)%Z; [apply cursorBelow_break|]; assumption. }
  revert H'. generalize (if (yPos p >? 270)%Z
                         then {| doc := addPage (doc p); yPos := 20 |} else p).
  clear. intros p [A L]. unfold cursorBelow, lastPlaced, lineHeight in *. simpl.
  split.
  - apply Adjacent_snoc; [assumption|].
    intros a Ha. destruct (L a Ha) as [L1 L2]. unfold readsBefore. simpl.
    destruct (Nat.eq_dec (p_page a) (currentPage (doc p))) as [E|E];
      [right; auto|left; lia].
  - intros a. rewrite rev_app_distr. simpl. intros E. inversion E; subst; simpl.
    split; [lia|intros _; lia].
Qed.

Lemma cursorBelow_addText (t : jsstring) (fs : Z) (b : bool) (p : Pdf) :
  cursorBelow p -> cursorBelow (addText splitTextToSize t fs b p).
Proof.
  intros H. unfold addText, forEach.
  apply forEachFrom_invariant; [intros; now apply cursorBelow_placeLine|].
  apply cursorBelow_font; [reflexivity|reflexivity|assumption].
Qed.

Lemma cursorBelow_addSection (t : jsstring) (p : Pdf) :
  cursorBelow p -> cursorBelow (addSection splitTextToSize t p).
Proof.
  intros H. unfold addSection.
  apply cursorBelow_down; [lia|]. apply cursorBelow_addText.
  apply cursorBelow_down; [lia|].
  destruct (yPos p >? 250)%Z; [apply cursorBelow_break|]; assumption.
Qed.

Lemma cursorBelow_header : cursorBelow (pdfHeader generated).
Proof.
  unfold cursorBelow, lastPlaced, pdfHeader. simpl. split.
  - apply Adjacent_two. right. simpl. split; [reflexivity|lia].
  - intros a E. inversion E; subst; simpl. split; [lia|intros _; lia].
Qed.

(** Titles and their first body line. *)

Lemma titleOpen_font (p : Pdf) (d : jsPDF) :
  content d = content (doc p) -> currentPage d = currentPage (doc p) ->
  titleOpen p -> titleOpen {| doc := d; yPos := yPos p |}.
Proof.
  unfold titleOpen, lastPlaced. simpl. intros -> ->. tauto.
Qed.

Lemma titleOpen_placeLine (fs : Z) (line : jsstring) (p : Pdf) :
  fs <> 14%Z ->
  titleOpen p /\ activeFontSize (doc p) = fs ->
  titleOpen (placeLine line p) /\ activeFontSize (doc (placeLine line p)) = fs.
Proof.
  intros Hfs [[A L] F]. unfold placeLine.
  split; [|destruct (yPos p >? 270)%Z; assumption].
  unfold titleOpen, lastPlaced in *.
  assert (B : isTitle {| p_page := currentPage (doc p); p_size := activeFontSize (doc p);
                         p_style := activeFontStyle (doc p); p_text := line;
                         p_x := margin; p_y := yPos p |} = false).
  { unfold isTitle. simpl. apply Z.eqb_neq. congruence. }
  destruct (Z.gtb_spec (yPos p) 270) as [G|G]; simpl.
  - split.
    + apply Adjacent_snoc; [assumption|].
      intros a Ha Ta _. destruct (L a Ha Ta) as (_ & _ & Y). lia.
    + intros a. rewrite rev_app_distr. simpl. intros E Ta.
      inversion E; subst. unfold isTitle in Ta. simpl in Ta.
      apply Z.eqb_eq in Ta. contradiction.
  - split.
    + apply Adjacent_snoc; [assumption|].
      intros a Ha Ta _. destruct (L a Ha Ta) as (Pg & Y1 & Y2). simpl.
      unfold lineHeight in *. repeat split; [assumption|lia|lia].
    + intros a. rewrite rev_app_distr. simpl. intros E Ta.
      inversion E; subst. rewrite B in Ta. discriminate.
Qed.

Lemma titleOpen_addText (t : jsstring) (fs : Z) (b : bool) (p : Pdf) :
  fs <> 14%Z -> titleOpen p -> titleOpen (addText splitTextToSize t fs b p).
Proof.
  intros Hfs H. unfold addText, forEach.
  apply (forEachFrom_invariant
           (fun q => titleOpen q /\ activeFontSize (doc q) = fs)).
  - intros line _ q Hq. now apply titleOpen_placeLine.
  - split; [|reflexivity].
    apply titleOpen_font; [reflexivity|reflexivity|assumption].
Qed.

(** After a title that fits on one line the cursor is at most
    250 + 5 + 7 + 2. *)
Lemma addSection_one_line (t l : jsstring) (p : Pdf) :
  splitTextToSize 14 bold t = [l] ->
  let p0 := if (yPos p >? 250)%Z
            then {| doc := addPage (doc p); yPos := 20 |} else p in
  (yPos p0 <= 250)%Z
  /\ addSection splitTextToSize t p =
     {| doc := docText l margin (yPos p0 + 5)
                 (setFont bold (setFontSize 14 (doc p0)));
        yPos := yPos p0 + 5 + lineHeight + 2 |}.
Proof.
  intros Hs p0.
  assert (Hp : (yPos p0 <= 250)%Z).
  { unfold p0. destruct (Z.gtb_spec (yPos p) 250); simpl; lia. }
  split; [assumption|].
  unfold addSection, addText, forEach. fold p0.
  cbn [doc yPos setFont setFontSize activeFontSize activeFontStyle styleOf].
  rewrite Hs. cbn [forEachFrom]. unfold placeLine. cbn [doc yPos].
  destruct (Z.gtb_spec (yPos p0 + 5) 270); [lia|reflexivity].
Qed.

Lemma titleOpen_addSection (t : jsstring) (p : Pdf) :
  List.length (splitTextToSize 14 bold t) = 1%nat ->
  titleOpen p -> titleOpen (addSection splitTextToSize t p).
Proof.
  intros Hs [A L].
  destruct (splitTextToSize 14 bold t) as [|l [|]] eqn:E; try discriminate.
  destruct (addSection_one_line t l p E) as [Hy ->].
  assert (C : content (doc (if (yPos p >? 250)%Z
                then {| doc := addPage (doc p); yPos := 20 |} else p))
              = content (doc p)).
  { destruct (yPos p >? 250)%Z; reflexivity. }
  revert C Hy. generalize (if (yPos p >? 250)%Z
                           then {| doc := addPage (doc p); yPos := 20 |} else p).
  intros p0 C Hy. unfold titleOpen, lastPlaced, lineHeight in *. simpl. rewrite C.
  split.
  - apply Adjacent_snoc; [assumption|].
    intros a _ _ Tb. discriminate.
  - intros a. rewrite rev_app_distr. simpl. intros Ea _.
    inversion Ea; subst; simpl. repeat split; lia.
Qed.

Lemma titleOpen_header : titleOpen (pdfHeader generated).
Proof.
  unfold titleOpen, lastPlaced, pdfHeader. simpl. split.
  - apply Adjacent_two. intros T. discriminate.
  - intros a E. inversion E; subst. discriminate.
Qed.

(** C5: the report prints its title and date and then the sections in the
    order Input Text, Text Statistics, Readability Score, Tense Analysis,
    Passive Voice Detection, Word Frequency, Parts of Speech with only the
    non-empty categories in the order nouns, verbs, adjectives, adverbs,
    pronouns, prepositions, conjunctions; every title and body string is
    printed whole, wrapped on its own, and the lines are placed in reading
    order (page after page, top to bottom). *)
Theorem report_sections_in_order (text : jsstring) (r : AnalysisResult) :
  printed (downloadPDF splitTextToSize generated text r)
  = [(20%Z, bold, lit "Text Analysis Report");
     (10%Z, normal, lit "Generated: " ++ generated)]
    ++ flat_map (typesetSection splitTextToSize) (reportSections text r)
  /\ map sec_title (reportSections text r) = sectionTitles
  /\ sec_lines (posSection r)
     = map posLine (filter (fun c => nonEmpty (snd c))
                           [(lit "Nouns", nouns (parts_of_speech r));
                            (lit "Verbs", verbs (parts_of_speech r));
                            (lit "Adjectives", adjectives (parts_of_speech r));
                            (lit "Adverbs", adverbs (parts_of_speech r));
                            (lit "Pronouns", pronouns (parts_of_speech r));
                            (lit "Prepositions", prepositions (parts_of_speech r));
                            (lit "Conjunctions", conjunctions (parts_of_speech r))])
  /\ Adjacent readsBefore
       (content (doc (downloadPDF splitTextToSize generated text r))).
Proof.
  split; [apply printed_downloadPDF|].
  split; [reflexivity|].
  split; [reflexivity|].
  destruct (report_invariant cursorBelow cursorBelow_header
              (fun t fs p _ => cursorBelow_addText t fs false p)
              (fun t p _ => cursorBelow_addSection t p) text r)
    as (p & [A _] & ->).
  exact A.
Qed.

(** C6: when each section title fits on one line, the cursor after a title
    is at most 250 + 5 + 7 + 2 = 264, within the content height of 270, and
    in the saved document a title that is followed by a body line has it on
    its own page, 9 units below. *)
Theorem title_kept_with_first_body_line (text : jsstring) (r : AnalysisResult) :
  (forall t, In t sectionTitles ->
     List.length (splitTextToSize 14 bold t) = 1%nat) ->
  (forall t p, In t sectionTitles ->
     (yPos (addSection splitTextToSize t p) <= 250 + 5 + 7 + 2)%Z
     /\ (yPos (addSection splitTextToSize t p) <= 270)%Z)
  /\ Adjacent keptWithTitle
       (content (doc (downloadPDF splitTextToSize generated text r))).
Proof.
  intros Hfit. split.
  - intros t p Ht. specialize (Hfit t Ht).
    destruct (splitTextToSize 14 bold t) as [|l [|]] eqn:E; try discriminate.
    destruct (addSection_one_line t l p E) as [Hy ->].
    unfold lineHeight. simpl. lia.
  - destruct (report_invariant titleOpen titleOpen_header
                (fun t fs p H => titleOpen_addText t fs false p H)
                (fun t p H => titleOpen_addSection t p (Hfit t H)) text r)
      as (p & [A _] & ->).
    exact A.
Qed.

Lemma filter_none {A : Type} (h : A -> bool) (l : list A) :
  (forall c, In c l -> h c = false) -> filter h l = [].
Proof.
  induction l as [|a r IH]; intros H; simpl; [reflexivity|].
  rewrite (H a) by (left; reflexivity).
  apply IH. intros c Hc. apply H. right. exact Hc.
Qed.

(** C7, amended: with exactly one passive sentence the Passive Voice
    Detection section has two body strings, the line
    "Found 1 sentence(s) with passive voice:" and the sentence numbered
    "1. ", each wrapped on its own; the sentinel is not among them. *)
Theorem passive_section_of_one_sentence (text : jsstring) (r : AnalysisResult)
    (sentence : jsstring) :
  passive_sentences r = [sentence] ->
  sec_lines (passiveSection r)
  = [lit "Found 1 sentence(s) with passive voice:"; lit "1. " ++ sentence]
  /\ ~ In (lit "No passive voice sentences detected.") (sec_lines (passiveSection r))
  /\ (forall p,
        printed (pdfPassiveVoice splitTextToSize r p)
        = printed p
          ++ wrap splitTextToSize 14 bold (lit "PASSIVE VOICE DETECTION")
          ++ wrap splitTextToSize 12 normal (lit "Found 1 sentence(s) with passive voice:")
          ++ wrap splitTextToSize 12 normal (lit "1. " ++ sentence))
  /\ exists before,
       printed (downloadPDF splitTextToSize generated text r)
       = before
         ++ wrap splitTextToSize 14 bold (lit "PASSIVE VOICE DETECTION")
         ++ wrap splitTextToSize 12 normal (lit "Found 1 sentence(s) with passive voice:")
         ++ wrap splitTextToSize 12 normal (lit "1. " ++ sentence)
         ++ typesetSection splitTextToSize (frequencySection r)
         ++ typesetSection splitTextToSize (posSection r).
Proof.
  intros H.
  assert (E : sec_lines (passiveSection r)
    = [lit "Found 1 sentence(s) with passive voice:"; lit "1. " ++ sentence]).
  { unfold passiveSection. cbn [sec_lines]. rewrite H. reflexivity. }
  assert (T : typesetSection splitTextToSize (passiveSection r)
    = wrap splitTextToSize 14 bold (lit "PASSIVE VOICE DETECTION")
      ++ wrap splitTextToSize 12 normal (lit "Found 1 sentence(s) with passive voice:")
      ++ wrap splitTextToSize 12 normal (lit "1. " ++ sentence)).
  { unfold typesetSection. rewrite E. cbn [flat_map passiveSection sec_title sec_size].
    rewrite app_nil_r. reflexivity. }
  split; [exact E|].
  split.
  { rewrite E. intros [F|[F|[]]]; vm_compute in F; discriminate. }
  split.
  { intros p. rewrite printed_pdfPassiveVoice, T. reflexivity. }
  exists ([(20%Z, bold, lit "Text Analysis Report");
           (10%Z, normal, lit "Generated: " ++ generated)]
          ++ flat_map (typesetSection splitTextToSize)
               [inputSection text; statisticsSection r; readabilitySection r;
                tenseSection r]).
  rewrite printed_downloadPDF.
  change (reportSections text r)
    with ([inputSection text; statisticsSection r; readabilitySection r;
           tenseSection r]
          ++ [passiveSection r; frequencySection r; posSection r]).
  rewrite flat_map_app.
  cbn [flat_map]. rewrite T, !app_nil_r, <- !app_assoc.
  reflexivity.
Qed.

(** C10: the report always prints the title PARTS OF SPEECH after the Word
    Frequency section, followed by one body string for each category that
    is present and non-empty; when every category is empty or absent the
    document ends with that title. *)
Theorem parts_of_speech_title_unconditional (text : jsstring) (r : AnalysisResult) :
  exists before,
    printed (downloadPDF splitTextToSize generated text r)
    = before
      ++ wrap splitTextToSize 14 bold (lit "PARTS OF SPEECH")
      ++ flat_map (wrap splitTextToSize 12 normal) (sec_lines (posSection r))
    /\ (posAllEmpty (parts_of_speech r) ->
        sec_lines (posSection r) = []
        /\ printed (downloadPDF splitTextToSize generated text r)
           = before ++ wrap splitTextToSize 14 bold (lit "PARTS OF SPEECH")).
Proof.
  exists ([(20%Z, bold, lit "Text Analysis Report");
           (10%Z, normal, lit "Generated: " ++ generated)]
          ++ flat_map (typesetSection splitTextToSize)
               [inputSection text; statisticsSection r; readabilitySection r;
                tenseSection r; passiveSection r; frequencySection r]).
  assert (E : printed (downloadPDF splitTextToSize generated text r)
    = ([(20%Z, bold, lit "Text Analysis Report");
        (10%Z, normal, lit "Generated: " ++ generated)]
       ++ flat_map (typesetSection splitTextToSize)
            [inputSection text; statisticsSection r; readabilitySection r;
             tenseSection r; passiveSection r; frequencySection r])
      ++ wrap splitTextToSize 14 bold (lit "PARTS OF SPEECH")
      ++ flat_map (wrap splitTextToSize 12 normal) (sec_lines (posSection r))).
  { change (wrap splitTextToSize 14 bold (lit "PARTS OF SPEECH")
            ++ flat_map (wrap splitTextToSize 12 normal) (sec_lines (posSection r)))
      with (typesetSection splitTextToSize (posSection r)).
    rewrite printed_downloadPDF.
    change (reportSections text r)
      with ([inputSection text; statisticsSection r; readabilitySection r;
             tenseSection r; passiveSection r; frequencySection r]
            ++ [posSection r]).
    rewrite flat_map_app. cbn [flat_map]. rewrite !app_nil_r, <- !app_assoc.
    reflexivity. }
  split; [exact E|].
  intros H.
  assert (N : sec_lines (posSection r) = []).
  { unfold posSection. cbn [sec_lines]. rewrite filter_none; [reflexivity|].
    intros c Hc. apply H, Hc. }
  split; [exact N|].
  rewrite E, N.
  change (flat_map (wrap splitTextToSize 12 normal) []) with (@nil Printed).
  rewrite app_nil_r. reflexivity.
Qed.

End ReportProperties.

(** *** Instances *)

Lemma title_kept_witness :
  Adjacent keptWithTitle
    (content (doc (downloadPDF noWrap sampleDate sampleText sampleResult))).
Proof.
  apply (title_kept_with_first_body_line noWrap sampleDate sampleText sampleResult).
  intros t _. reflexivity.
Defined.

Lemma passive_section_witness :
  sec_lines (passiveSection sampleResult)
  = [lit "Found 1 sentence(s) with passive voice:"; lit "1. " ++ sampleText].
Proof.
  apply (passive_section_of_one_sentence noWrap sampleDate sampleText sampleResult
           sampleText).
  reflexivity.
Defined.

(** C7 as stated fails: for the one passive sentence of [sampleResult] the
    section has two body lines, none of them the bare sentence. *)
Lemma passive_section_has_two_body_lines :
  passive_sentences sampleResult = [sampleText]
  /\ sectionBody (lit "PASSIVE VOICE DETECTION")
       (content (doc (downloadPDF noWrap sampleDate sampleText sampleResult)))
     = [lit "Found 1 sentence(s) with passive voice:";
        lit "1. The cat was chased by the dog."]
  /\ sectionBody (lit "PASSIVE VOICE DETECTION")
       (content (doc (downloadPDF noWrap sampleDate sampleText sampleResult)))
     <> [sampleText].
Proof. vm_compute. repeat split. discriminate. Qed.

Lemma parts_of_speech_title_witness :
  exists before,
    printed (downloadPDF noWrap sampleDate sampleText sampleBare)
    = before ++ [(14%Z, bold, lit "PARTS OF SPEECH")].
Proof.
  destruct (parts_of_speech_title_unconditional noWrap sampleDate sampleText sampleBare)
    as (before & _ & H).
  exists before. apply H.
  intros c Hc. simpl in Hc.
  repeat (destruct Hc as [<-|Hc]; [reflexivity|]). contradiction.
Defined.

(** * Further properties *)

(** ** Validation *)

Lemma trimStart_nil (s : jsstring) :
  trimStart s = [] <-> existsb (fun c => negb (isWhiteSpace c)) s = false.
Proof.
  induction s as [|c r IH]; simpl; [tauto|].
  destruct (isWhiteSpace c); simpl; [exact IH|].
  split; discriminate.
Qed.

Lemma trimStart_existsb (s : jsstring) :
  existsb (fun c => negb (isWhiteSpace c)) (trimStart s)
  = existsb (fun c => negb (isWhiteSpace c)) s.
Proof.
  induction s as [|c r IH]; simpl; [reflexivity|].
  destruct (isWhiteSpace c) eqn:E; simpl; [exact IH|].
  rewrite E. reflexivity.
Qed.

Lemma existsb_rev' {A : Type} (f : A -> bool) (l : list A) :
  existsb f (rev l) = existsb f l.
Proof.
  induction l as [|a r IH]; simpl; [reflexivity|].
  rewrite existsb_app, IH. simpl. rewrite orb_false_r. apply orb_comm.
Qed.

(** [trim] leaves nothing exactly when every code unit is white space. *)
Lemma trim_nil (s : jsstring) :
  trim s = [] <-> existsb (fun c => negb (isWhiteSpace c)) s = false.
Proof.
  unfold trim, trimEnd.
  rewrite <- (trimStart_existsb s), <- (existsb_rev' _ (trimStart s)).
  rewrite <- trimStart_nil.
  split; intros H.
  - apply (f_equal (@rev code_unit)) in H. rewrite rev_involutive in H. exact H.
  - rewrite H. reflexivity.
Qed.

(** The two outcomes of [handleAnalyze]. *)
Lemma handleAnalyze_by_sendable (s : AppState) :
  (sendable (text s) ->
   handleAnalyze s =
     (setResult None (setError [] (setLoading true s)),
      [Fetch analyzeUrl (text s)]))
  /\ (~ sendable (text s) ->
      handleAnalyze s =
        (setError (lit "Please enter at least 10 characters of text") s, [])).
Proof.
  unfold sendable. split.
  - intros [Hl He]. apply handleAnalyze_dispatches; [|assumption].
    intros T. apply trim_nil in T. congruence.
  - intros N. unfold handleAnalyze.
    destruct (truthy (trim (text s))) eqn:T; simpl; [|reflexivity].
    destruct (Nat.ltb_spec (List.length (text s)) 10) as [L|L]; [reflexivity|].
    exfalso. apply N. split; [assumption|].
    destruct (existsb _ (text s)) eqn:E; [reflexivity|].
    apply trim_nil in E. rewrite E in T. discriminate.
Qed.

(** X1: [handleAnalyze] sends the text, in one call, exactly when it has at
    least 10 code units and one of them is not white space; it then raises
    the loading flag and drops the error and the result.  In every other
    case it only sets the validation message. *)
Theorem handleAnalyze_sends_iff_sendable (s : AppState) :
  (sendable (text s) ->
   handleAnalyze s =
     (setResult None (setError [] (setLoading true s)),
      [Fetch analyzeUrl (text s)]))
  /\ (~ sendable (text s) ->
      handleAnalyze s =
        (setError (lit "Please enter at least 10 characters of text") s, []))
  /\ (snd (handleAnalyze s) <> [] <-> sendable (text s)).
Proof.
  destruct (handleAnalyze_by_sendable s) as [A B].
  split; [exact A|]. split; [exact B|].
  split.
  - intros N.
    destruct (existsb (fun c => negb (isWhiteSpace c)) (text s)) eqn:E.
    + destruct (Nat.ltb_spec (List.length (text s)) 10) as [L|L].
      * exfalso. apply N. rewrite B; [reflexivity|].
        intros [L' _]. lia.
      * split; assumption.
    + exfalso. apply N. rewrite B; [reflexivity|].
      intros [_ E']. congruence.
  - intros H. rewrite (A H). discriminate.
Qed.

Lemma handleAnalyze_sends_witness :
  snd (handleAnalyze sampleSuccess) = [Fetch analyzeUrl sampleText]
  /\ snd (handleAnalyze (setText blankText sampleSuccess)) = [].
Proof.
  split.
  - rewrite (proj1 (handleAnalyze_sends_iff_sendable sampleSuccess)); [reflexivity|].
    split; [vm_compute; lia|reflexivity].
  - rewrite (proj1 (proj2 (handleAnalyze_sends_iff_sendable
                             (setText blankText sampleSuccess))));
      [reflexivity|].
    intros [_ E]. vm_compute in E. discriminate.
Defined.

(** ** The request across events *)

Lemma run_invariant (I : World -> Prop) :
  (forall w e, I w -> I (step w e)) ->
  forall es w, I w -> I (run es w).
Proof.
  intros Hs es. induction es as [|e es IH]; intros w H; simpl; [assumption|].
  apply IH, Hs, H.
Qed.

Lemma step_orderly (w : World) (e : Event) : orderly w -> orderly (step w e).
Proof.
  intros (C & Q & V). split; [apply step_coherent, C|].
  destruct C as [Hn _]. destruct e; simpl.
  - tauto.
  - unfold analyzeDisabled.
    destruct (loading (app w)) eqn:L; simpl; [rewrite L; tauto|].
    destruct (Nat.ltb_spec (List.length (text (app w))) 10) as [Len|Len];
      [rewrite L; tauto|].
    destruct (existsb (fun c => negb (isWhiteSpace c)) (text (app w))) eqn:E.
    + rewrite (proj1 (handleAnalyze_by_sendable (app w)))
        by (split; assumption).
      simpl. split; [reflexivity|].
      apply Forall_app. split; [assumption|].
      constructor; [split; assumption|constructor].
    + rewrite (proj2 (handleAnalyze_by_sendable (app w)))
        by (intros [_ E']; congruence).
      simpl. rewrite L. split; [discriminate|assumption].
  - split; [reflexivity|assumption].
  - destruct (clickCopy b (app w)) as [r|] eqn:E; [|tauto].
    apply clickCopy_shape in E. destruct E as [t ->]. simpl. tauto.
  - destruct (inFlight w) as [|n] eqn:N; [tauto|].
    simpl. split; [discriminate|assumption].
  - unfold elapse.
    pose proof (fireDue_app (clock w + Z.max 0 dt) (timers w) (app w)) as H.
    destruct (fireDue (clock w + Z.max 0 dt) (timers w) (app w)) as [s' keep].
    simpl in *. destruct H as (_ & _ & L & R). rewrite L, R. tauto.
Qed.

Lemma initial_orderly : orderly initialWorld.
Proof.
  split; [apply initial_coherent|]. split; [discriminate|constructor].
Qed.

(** X2: whatever the user does, every text that has been sent to the
    analyze endpoint has at least 10 code units and is not all white space. *)
Theorem only_sendable_texts_are_sent (es : list Event) :
  Forall sendable (requests (run es initialWorld)).
Proof.
  apply (run_invariant orderly step_orderly es initialWorld initial_orderly).
Qed.

(** X3: when a pending call ends with an ok response, its body becomes the
    stored result, no error is shown and the flag is down: the state is
    Success with that result. *)
Theorem successful_analyze_is_shown (es : list Event) (data : AnalysisResult) :
  inFlight (run es initialWorld) <> 0%nat ->
  let s' := app (step (run es initialWorld) (Settle (RespondedOk data))) in
  result s' = Some data /\ error s' = [] /\ loading s' = false
  /\ requestState s' = Success data
  /\ errorBanner s' = None /\ resultsPanel s' = true.
Proof.
  intros Hn.
  destruct (run_invariant orderly step_orderly es initialWorld initial_orderly)
    as ([Hc _] & Q & _).
  set (w := run es initialWorld) in *.
  assert (L : loading (app w) = true).
  { destruct (loading (app w)); [reflexivity|contradiction]. }
  specialize (Q L). cbn [step].
  destruct (inFlight w) as [|n]; [contradiction|].
  unfold requestState, errorBanner, resultsPanel. simpl. rewrite Q.
  repeat split.
Qed.

Lemma successful_analyze_witness :
  requestState (app (run [Input sampleText; ClickAnalyze;
                          Settle (RespondedOk sampleResult)] initialWorld))
  = Success sampleResult.
Proof.
  apply (successful_analyze_is_shown [Input sampleText; ClickAnalyze] sampleResult).
  vm_compute. discriminate.
Defined.

(** X4: while a call is pending the page shows neither an error nor a
    result, only the placeholder, and the Analyze button is disabled. *)
Theorem pending_call_shows_placeholder (es : list Event) :
  loading (app (run es initialWorld)) = true ->
  let s := app (run es initialWorld) in
  errorBanner s = None /\ resultsPanel s = false /\ emptyState s = true
  /\ analyzeDisabled s = true /\ inFlight (run es initialWorld) = 1%nat.
Proof.
  intros L.
  destruct (run_invariant orderly step_orderly es initialWorld initial_orderly)
    as ([Hc R] & Q & _).
  specialize (R L). specialize (Q L). cbv zeta.
  unfold errorBanner, emptyState, resultsPanel, analyzeDisabled.
  rewrite Hc, R, Q, L. repeat split.
Qed.

Lemma pending_call_witness :
  emptyState (app (run [Input sampleText; ClickAnalyze] initialWorld)) = true.
Proof.
  apply (pending_call_shows_placeholder [Input sampleText; ClickAnalyze]).
  reflexivity.
Defined.

(** ** Copying across events *)

(** [fireDue] in closed form: the callbacks all clear the mark. *)
Lemma fireDue_closed (t : Z) (ts : list (Z * Callback)) (s : AppState) :
  fireDue t ts s =
    (if existsb (fun x => (fst x <=? t)%Z) ts then setCopiedCategory None s else s,
     filter (fun x => negb (fst x <=? t)%Z) ts).
Proof.
  revert s. induction ts as [|[due cb] rest IH]; intros s; simpl; [reflexivity|].
  destruct (due <=? t)%Z; simpl.
  - rewrite IH. destruct cb. simpl.
    destruct (existsb _ rest); reflexivity.
  - rewrite IH. reflexivity.
Qed.

Lemma step_untouched (w : World) (e : Event) :
  isSuccess e = false -> untouched w -> untouched (step w e).
Proof.
  unfold untouched. intros He (R & C & M & T). destruct e; simpl.
  - tauto.
  - destruct (analyzeDisabled (app w)); [tauto|].
    unfold handleAnalyze.
    destruct (negb (truthy (trim (text (app w))))
              || (List.length (text (app w)) <? 10)%nat); simpl; tauto.
  - tauto.
  - unfold clickCopy. rewrite R. tauto.
  - destruct (inFlight w); [tauto|]. simpl.
    destruct o as [m|data|d]; [|discriminate|]; simpl; tauto.
  - unfold elapse. rewrite T. simpl. tauto.
Qed.

(** X5: until a call has ended with an ok response, no click writes to the
    clipboard, marks a category or starts a timer. *)
Theorem nothing_copied_before_a_result (es : list Event) :
  forallb (fun e => negb (isSuccess e)) es = true ->
  let w := run es initialWorld in
  clipboard w = None /\ copiedCategory (app w) = None /\ timers w = []
  /\ forall b, step w (ClickCopy b) = w.
Proof.
  intros H.
  assert (U : untouched (run es initialWorld)).
  { assert (U0 : untouched initialWorld) by (repeat split).
    revert U0 H. generalize initialWorld.
    induction es as [|e es IH]; intros w U H; simpl in *; [assumption|].
    apply andb_prop in H. destruct H as [He H].
    apply IH; [|assumption].
    apply step_untouched; [|assumption].
    destruct (isSuccess e); [discriminate|reflexivity]. }
  destruct U as (R & C & M & T). cbv zeta.
  repeat split; try assumption.
  intros b. simpl. unfold clickCopy. rewrite R. reflexivity.
Qed.

Lemma nothing_copied_witness :
  clipboard (run [Input sampleText; ClickAnalyze; ClickCopy BtnStats;
                  Settle (RespondedError None); ClickCopy BtnPast] initialWorld)
  = None.
Proof.
  apply (nothing_copied_before_a_result
           [Input sampleText; ClickAnalyze; ClickCopy BtnStats;
            Settle (RespondedError None); ClickCopy BtnPast]).
  reflexivity.
Defined.

Lemma step_timed (w : World) (e : Event) : timed w -> timed (step w e).
Proof.
  unfold timed. intros [M T]. destruct e; simpl.
  - tauto.
  - destruct (analyzeDisabled (app w)); [tauto|].
    unfold handleAnalyze.
    destruct (negb (truthy (trim (text (app w))))
              || (List.length (text (app w)) <? 10)%nat); simpl; tauto.
  - tauto.
  - destruct (clickCopy b (app w)) as [r|] eqn:E; [|tauto].
    apply clickCopy_shape in E. destruct E as [t ->]. simpl.
    split.
    + intros _ N. apply app_eq_nil in N. destruct N; discriminate.
    + apply Forall_app. split; [assumption|].
      constructor; [simpl; lia|constructor].
  - destruct (inFlight w); [tauto|]. simpl.
    unfold handleAnalyzeSettled. destruct (analyzeTry o (app w)) eqn:E.
    + destruct o; simpl in E; inversion E; subst; simpl; tauto.
    + simpl. tauto.
  - unfold elapse. rewrite fireDue_closed. simpl.
    set (t := (clock w + Z.max 0 dt)%Z).
    assert (Ht : (clock w <= t)%Z) by (unfold t; lia).
    split.
    + destruct (existsb (fun x => (fst x <=? t)%Z) (timers w)) eqn:E;
        [simpl; congruence|].
      intros Hm. specialize (M Hm).
      assert (F : filter (fun x => negb (fst x <=? t)%Z) (timers w) = timers w).
      { clear -E. induction (timers w) as [|x r IH]; simpl in *; [reflexivity|].
        apply orb_false_elim in E. destruct E as [E1 E2].
        rewrite E1. simpl. rewrite IH by assumption. reflexivity. }
      rewrite F. exact M.
    + rewrite Forall_forall in *. intros x Hx.
      apply filter_In in Hx. destruct Hx as [Hx Hd].
      specialize (T x Hx).
      destruct (Z.leb_spec (fst x) t); [discriminate|]. lia.
Qed.

Lemma initial_timed : timed initialWorld.
Proof. split; [intros H; now elim H|constructor]. Qed.

(** X6: a copied mark never stays: in every state the user can reach, a
    marked category has a timer pending, every pending timer is due within
    2000, and once 2000 have passed without another copy the mark is gone
    and no timer is left. *)
Theorem copy_mark_always_expires (es : list Event) (dt : Z) :
  let w := run es initialWorld in
  (copiedCategory (app w) <> None -> timers w <> [])
  /\ Forall (fun t => (clock w < fst t <= clock w + 2000)%Z) (timers w)
  /\ ((2000 <= dt)%Z ->
      copiedCategory (app (step w (Elapse dt))) = None
      /\ timers (step w (Elapse dt)) = []).
Proof.
  destruct (run_invariant timed step_timed es initialWorld initial_timed) as [M T].
  cbv zeta. split; [assumption|]. split; [assumption|].
  intros Hd. cbn [step]. unfold elapse. rewrite fireDue_closed. simpl.
  set (w := run es initialWorld) in *.
  assert (D : forall x, In x (timers w) -> (fst x <=? clock w + Z.max 0 dt)%Z = true).
  { rewrite Forall_forall in T. intros x Hx. specialize (T x Hx).
    apply Z.leb_le. lia. }
  split.
  - destruct (timers w) as [|x r] eqn:E.
    + simpl. destruct (copiedCategory (app w)) eqn:C; [|reflexivity].
      exfalso. apply M; [discriminate|reflexivity].
    + simpl. rewrite (D x) by (left; reflexivity). reflexivity.
  - clear -D. induction (timers w) as [|x r IH]; simpl; [reflexivity|].
    rewrite (D x) by (left; reflexivity). simpl.
    apply IH. intros y Hy. apply D. right. exact Hy.
Qed.

Lemma copy_mark_expires_witness :
  copiedCategory
    (app (step (run [Input sampleText; ClickAnalyze;
                     Settle (RespondedOk sampleResult); ClickCopy BtnStats;
                     Elapse 500; ClickCopy BtnPast] initialWorld)
               (Elapse 2000))) = None.
Proof.
  apply (copy_mark_always_expires
           [Input sampleText; ClickAnalyze; Settle (RespondedOk sampleResult);
            ClickCopy BtnStats; Elapse 500; ClickCopy BtnPast] 2000).
  lia.
Defined.

(** X8: a click on any copy button that is rendered writes one text to
    the clipboard, marks the category of that button and starts one timer of
    2000; it leaves the text, the result, the loading flag and the error as
    they are, and sends nothing. *)
Theorem copy_click_only_copies (b : CopyButton) (w : World) :
  clickCopy b (app w) <> None ->
  let w' := step w (ClickCopy b) in
  copiedCategory (app w') = Some (categoryOf b)
  /\ clipboard w' <> None
  /\ timers w' = timers w ++ [((clock w + 2000)%Z, ClearCopied)]
  /\ text (app w') = text (app w) /\ result (app w') = result (app w)
  /\ loading (app w') = loading (app w) /\ error (app w') = error (app w)
  /\ requests w' = requests w /\ inFlight w' = inFlight w /\ clock w' = clock w.
Proof.
  intros H. destruct (step_ClickCopy w b H) as [t E].
  cbv zeta. rewrite E. simpl. repeat split. discriminate.
Qed.

Lemma copy_click_witness :
  clipboard (step (withApp sampleSuccess initialWorld) (ClickCopy BtnWordFreq))
  <> None.
Proof.
  apply (copy_click_only_copies BtnWordFreq (withApp sampleSuccess initialWorld)).
  vm_compute. discriminate.
Defined.

Lemma eqb_eq (a b : jsstring) : eqb a b = true <-> a = b.
Proof.
  revert b. induction a as [|x a IH]; destruct b as [|y b]; simpl;
    try (split; [discriminate|discriminate]); [tauto|].
  rewrite andb_true_iff, N.eqb_eq, IH. split.
  - intros [-> ->]. reflexivity.
  - intros E. inversion E. tauto.
Qed.

Lemma categoryOf_injective (b b' : CopyButton) :
  categoryOf b = categoryOf b' -> b = b'.
Proof.
  destruct b, b'; intros H; try reflexivity; vm_compute in H; discriminate.
Qed.

(** X7: the fourteen copy buttons carry fourteen different category names,
    so after a click on a rendered copy button its icon, and the icon of no
    other button, is the check mark. *)
Theorem only_clicked_button_is_checked (b b' : CopyButton) (s : AppState)
    (r : AppState * list Effect) :
  clickCopy b s = Some r ->
  (CopyIcon (categoryOf b') (fst r) = CheckMark <-> b' = b).
Proof.
  intros H. apply clickCopy_shape in H. destruct H as [t ->].
  unfold CopyIcon. simpl.
  destruct (eqb (categoryOf b) (categoryOf b')) eqn:E.
  - apply eqb_eq, categoryOf_injective in E. subst. tauto.
  - split; [discriminate|].
    intros ->. rewrite (proj2 (eqb_eq _ _) eq_refl) in E. discriminate.
Qed.

Lemma only_clicked_button_witness :
  CopyIcon (lit "past")
    (fst (handleCopyCategory (lit "past") (WArray [lit "was"; lit "chased"])
            sampleSuccess)) = CheckMark.
Proof.
  apply (only_clicked_button_is_checked BtnPast BtnPast sampleSuccess
           (handleCopyCategory (lit "past") (WArray [lit "was"; lit "chased"])
              sampleSuccess)); reflexivity.
Defined.

(** ** The layout of the report *)

Section ReportLayout.

Variable splitTextToSize : Z -> FontStyle -> jsstring -> list jsstring.
Variable generated : jsstring.

(** Inside the frame. *)

Lemma inFrame_font (p : Pdf) (d : jsPDF) :
  content d = content (doc p) -> currentPage d = currentPage (doc p) ->
  inFrame p -> inFrame {| doc := d; yPos := yPos p |}.
Proof. unfold inFrame. simpl. intros -> ->. tauto. Qed.

Lemma inFrame_down (p : Pdf) (k : Z) :
  (0 <= k)%Z -> inFrame p -> inFrame {| doc := doc p; yPos := yPos p + k |}.
Proof. unfold inFrame. simpl. intros Hk (F & Y & P). repeat split; [assumption|lia|lia]. Qed.

Lemma inFrame_break (p : Pdf) :
  inFrame p -> inFrame {| doc := addPage (doc p); yPos := 20 |}.
Proof.
  unfold inFrame. simpl. intros (F & Y & P). repeat split; [|lia|lia].
  revert F. apply Forall_impl. intros a (X & Ya & Pa). repeat split; lia.
Qed.

Lemma inFrame_placeLine (line : jsstring) (p : Pdf) :
  inFrame p -> inFrame (placeLine line p).
Proof.
  intros H. unfold placeLine.
  destruct (Z.gtb_spec (yPos p) 270) as [G|G].
  - apply inFrame_break in H. destruct H as (F & Y & P).
    unfold inFrame, lineHeight in *. simpl in *. repeat split; [|lia|lia].
    apply Forall_app. split; [assumption|].
    constructor; [simpl; repeat split; lia|constructor].
  - destruct H as (F & Y & P).
    unfold inFrame, lineHeight in *. simpl in *. repeat split; [|lia|lia].
    apply Forall_app. split; [assumption|].
    constructor; [simpl; repeat split; lia|constructor].
Qed.

Lemma inFrame_addText (t : jsstring) (fs : Z) (b : bool) (p : Pdf) :
  inFrame p -> inFrame (addText splitTextToSize t fs b p).
Proof.
  intros H. unfold addText, forEach.
  apply forEachFrom_invariant; [intros; now apply inFrame_placeLine|].
  apply inFrame_font; [reflexivity|reflexivity|assumption].
Qed.

Lemma inFrame_addSection (t : jsstring) (p : Pdf) :
  inFrame p -> inFrame (addSection splitTextToSize t p).
Proof.
  intros H. unfold addSection.
  apply inFrame_down; [lia|]. apply inFrame_addText.
  apply inFrame_down; [lia|].
  destruct (yPos p >? 250)%Z; [apply inFrame_break|]; assumption.
Qed.

Lemma inFrame_header : inFrame (pdfHeader generated).
Proof.
  unfold inFrame, pdfHeader, margin. simpl. repeat split; try lia.
  repeat constructor; simpl; lia.
Qed.

Ltac one_of_titles :=
  unfold sectionTitles; repeat first [left; reflexivity | right].

(** The document that is saved is the one the layout ends with. *)
Lemma report_invariant_saved (I : Pdf -> Prop) :
  I (pdfHeader generated) ->
  (forall t fs p, fs <> 14%Z -> I p -> I (addText splitTextToSize t fs false p)) ->
  (forall t p, In t sectionTitles -> I p -> I (addSection splitTextToSize t p)) ->
  forall text r, exists p,
    I p /\ downloadPDF splitTextToSize generated text r
           = {| doc := save (lit "text-analysis-report.pdf") (doc p);
                yPos := yPos p |}.
Proof.
  intros I_header I_body I_title text r.
  eexists. split; [|unfold downloadPDF; cbv zeta; reflexivity].
  unfold pdfPartsOfSpeech, pdfWordFrequency, pdfPassiveVoice, pdfTenseAnalysis,
    pdfReadability, pdfTextStatistics, pdfInputText, forEach.
  repeat (apply I_pdfCategory; [exact I_body|]).
  apply I_title; [one_of_titles|].
  apply forEachFrom_invariant; [intros; apply I_body; [discriminate|assumption]|].
  apply I_title; [one_of_titles|].
  set (q := addSection splitTextToSize (lit "PASSIVE VOICE DETECTION") _).
  assert (P : I q).
  { unfold q.
    repeat first [ apply I_body; [discriminate|]
                 | apply I_title; [one_of_titles|] ].
    exact I_header. }
  clearbody q.
  destruct (0 <? List.length (passive_sentences r))%nat.
  - apply forEachFrom_invariant; [intros; apply I_body; [discriminate|assumption]|].
    apply I_body; [discriminate|exact P].
  - apply I_body; [discriminate|exact P].
Qed.

(** X9: however jsPDF wraps the text, every line of the report is placed at
    the left margin (x = 20) with 20 <= y <= 270, on a page between 1 and
    the last page of the document. *)
Theorem report_lines_inside_frame (text : jsstring) (r : AnalysisResult) :
  let d := doc (downloadPDF splitTextToSize generated text r) in
  Forall (fun a => p_x a = 20%Z /\ (20 <= p_y a <= 270)%Z
                   /\ (1 <= p_page a <= currentPage d)%nat)
         (content d).
Proof.
  destruct (report_invariant_saved inFrame inFrame_header
              (fun t fs p _ => inFrame_addText t fs false p)
              (fun t p _ => inFrame_addSection t p) text r)
    as (p & (F & _) & ->).
  exact F.
Qed.

(** A line height apart. *)

Lemma lastPlaced_In (p : Pdf) (a : Placed) :
  lastPlaced p = Some a -> In a (content (doc p)).
Proof.
  unfold lastPlaced. intros H. apply in_rev.
  destruct (rev (content (doc p))); [discriminate|].
  inversion H. left. reflexivity.
Qed.

Lemma apart_font (p : Pdf) (d : jsPDF) :
  content d = content (doc p) -> currentPage d = currentPage (doc p) ->
  inFrame p /\ apart p ->
  inFrame {| doc := d; yPos := yPos p |} /\ apart {| doc := d; yPos := yPos p |}.
Proof.
  intros C P [F A]. split; [now apply inFrame_font|].
  unfold apart, lastPlaced in *. simpl. rewrite C, P. exact A.
Qed.

Lemma apart_down (p : Pdf) (k : Z) :
  (0 <= k)%Z -> inFrame p /\ apart p ->
  inFrame {| doc := doc p; yPos := yPos p + k |}
  /\ apart {| doc := doc p; yPos := yPos p + k |}.
Proof.
  intros Hk [F [A L]]. split; [now apply inFrame_down|].
  unfold apart, lastPlaced in *. simpl. split; [assumption|].
  intros a Ha Hp. specialize (L a Ha Hp). lia.
Qed.

Lemma apart_break (p : Pdf) :
  inFrame p /\ apart p ->
  inFrame {| doc := addPage (doc p); yPos := 20 |}
  /\ apart {| doc := addPage (doc p); yPos := 20 |}.
Proof.
  intros [F [A L]]. split; [now apply inFrame_break|].
  unfold apart. split; [exact A|].
  intros a Ha Hp. exfalso.
  apply (lastPlaced_In p) in Ha.
  destruct F as (F & _). rewrite Forall_forall in F.
  destruct (F a Ha) as (_ & _ & Pa). simpl in Hp. lia.
Qed.

Lemma apart_placeLine (line : jsstring) (p : Pdf) :
  inFrame p /\ apart p -> inFrame (placeLine line p) /\ apart (placeLine line p).
Proof.
  intros H. split; [apply inFrame_placeLine, H|].
  unfold placeLine.
  assert (H' : inFrame (if (yPos p >? 270)%Z
                        then {| doc := addPage (doc p); yPos := 20 |} else p)
               /\ apart (if (yPos p >? 270)%Z
                         then {| doc := addPage (doc p); yPos := 20 |} else p)).
  { destruct (yPos p >? 270)%Z; [apply apart_break|]; assumption. }
  revert H'. generalize (if (yPos p >? 270)%Z
                         then {| doc := addPage (doc p); yPos := 20 |} else p).
  clear. intros p [_ [A L]]. unfold apart, lastPlaced in *. simpl. split.
  - apply Adjacent_snoc; [assumption|].
    intros a Ha Hp. simpl in *. apply L; assumption.
  - intros a. rewrite rev_app_distr. simpl. intros E _.
    inversion E; subst; simpl. lia.
Qed.

Lemma apart_addText (t : jsstring) (fs : Z) (b : bool) (p : Pdf) :
  inFrame p /\ apart p ->
  inFrame (addText splitTextToSize t fs b p)
  /\ apart (addText splitTextToSize t fs b p).
Proof.
  intros H. unfold addText, forEach.
  apply (forEachFrom_invariant (fun q => inFrame q /\ apart q));
    [intros; now apply apart_placeLine|].
  apply apart_font; [reflexivity|reflexivity|assumption].
Qed.

Lemma apart_addSection (t : jsstring) (p : Pdf) :
  inFrame p /\ apart p ->
  inFrame (addSection splitTextToSize t p)
  /\ apart (addSection splitTextToSize t p).
Proof.
  intros H. unfold addSection.
  apply apart_down; [lia|]. apply apart_addText.
  apply apart_down; [lia|].
  destruct (yPos p >? 250)%Z; [apply apart_break|]; assumption.
Qed.

Lemma apart_header : inFrame (pdfHeader generated) /\ apart (pdfHeader generated).
Proof.
  split; [apply inFrame_header|].
  unfold apart, lastPlaced, pdfHeader, spaced, lineHeight. simpl. split.
  - apply Adjacent_two. simpl. lia.
  - intros a E _. inversion E; subst; simpl. lia.
Qed.

(** X10: however jsPDF wraps the text, two lines that follow one another on
    the same page of the report are at least one line height (7) apart, so
    no two lines are printed over each other. *)
Theorem report_lines_do_not_overlap (text : jsstring) (r : AnalysisResult) :
  Adjacent (fun a b => p_page a = p_page b -> (p_y a + 7 <= p_y b)%Z)
    (content (doc (downloadPDF splitTextToSize generated text r))).
Proof.
  destruct (report_invariant_saved (fun q => inFrame q /\ apart q) apart_header
              (fun t fs p _ => apart_addText t fs false p)
              (fun t p _ => apart_addSection t p) text r)
    as (p & (_ & A & _) & ->).
  exact A.
Qed.

(** The first line. *)

Lemma first_placeLine (line : jsstring) (p : Pdf) :
  startsOnPageOne p -> startsOnPageOne (placeLine line p).
Proof.
  intros (a & rest & E & P). unfold startsOnPageOne, placeLine.
  destruct (yPos p >? 270)%Z; simpl; rewrite E;
    eexists; eexists; (split; [reflexivity|assumption]).
Qed.

Lemma first_addText (t : jsstring) (fs : Z) (b : bool) (p : Pdf) :
  startsOnPageOne p -> startsOnPageOne (addText splitTextToSize t fs b p).
Proof.
  intros H. unfold addText, forEach.
  apply forEachFrom_invariant; [intros; now apply first_placeLine|].
  exact H.
Qed.

Lemma first_addSection (t : jsstring) (p : Pdf) :
  startsOnPageOne p -> startsOnPageOne (addSection splitTextToSize t p).
Proof.
  intros H. unfold addSection.
  assert (H' : startsOnPageOne
    (addText splitTextToSize t 14 true
       {| doc := doc (if (yPos p >? 250)%Z
                      then {| doc := addPage (doc p); yPos := 20 |} else p);
          yPos := yPos (if (yPos p >? 250)%Z
                        then {| doc := addPage (doc p); yPos := 20 |} else p) + 5 |})).
  { apply first_addText. destruct (yPos p >? 250)%Z; exact H. }
  exact H'.
Qed.

Lemma first_header : startsOnPageOne (pdfHeader generated).
Proof. unfold startsOnPageOne, pdfHeader. simpl. eauto. Qed.

(** Where titles start, and how pages follow. *)

Section OneLineTitles.

Hypothesis titles_fit : forall t, In t sectionTitles ->
  List.length (splitTextToSize 14 bold t) = 1%nat.

Lemma paged_placeLine (fs : Z) (line : jsstring) (p : Pdf) :
  fs <> 14%Z -> paged fs p -> paged fs (placeLine line p).
Proof.
  intros Hfs [[[T Y] [A L]] F]. unfold paged, placeLine.
  split; [|destruct (yPos p >? 270)%Z; assumption].
  assert (B : forall pg y,
    isTitle {| p_page := pg; p_size := activeFontSize (doc p);
               p_style := activeFontStyle (doc p); p_text := line;
               p_x := margin; p_y := y |} = false).
  { intros. unfold isTitle. simpl. apply Z.eqb_neq. congruence. }
  unfold titlesInBand, noBlankPage, lastPlaced, lineHeight in *.
  destruct (Z.gtb_spec (yPos p) 270) as [G|G]; simpl.
  - repeat split.
    + apply Forall_app. split; [assumption|].
      constructor; [rewrite B; discriminate|constructor].
    + lia.
    + apply Adjacent_snoc; [assumption|].
      intros a Ha. right. rewrite B. simpl. rewrite (L a Ha). tauto.
    + intros a. rewrite rev_app_distr. simpl. intros E. inversion E. reflexivity.
  - repeat split.
    + apply Forall_app. split; [assumption|].
      constructor; [rewrite B; discriminate|constructor].
    + lia.
    + apply Adjacent_snoc; [assumption|].
      intros a Ha. left. simpl. rewrite (L a Ha). reflexivity.
    + intros a. rewrite rev_app_distr. simpl. intros E. inversion E. reflexivity.
Qed.

Lemma paged_addText (t : jsstring) (fs : Z) (b : bool) (p : Pdf) :
  fs <> 14%Z -> titlesInBand p /\ noBlankPage p ->
  titlesInBand (addText splitTextToSize t fs b p)
  /\ noBlankPage (addText splitTextToSize t fs b p).
Proof.
  intros Hfs H. unfold addText, forEach.
  apply (forEachFrom_invariant (paged fs)).
  - intros line _ q Hq. now apply paged_placeLine.
  - split; [exact H|reflexivity].
Qed.

Lemma paged_addSection (t : jsstring) (p : Pdf) :
  In t sectionTitles -> titlesInBand p /\ noBlankPage p ->
  titlesInBand (addSection splitTextToSize t p)
  /\ noBlankPage (addSection splitTextToSize t p).
Proof.
  intros Ht [[T Y] [A L]]. specialize (titles_fit t Ht).
  destruct (splitTextToSize 14 bold t) as [|l [|]] eqn:E; try discriminate.
  destruct (addSection_one_line splitTextToSize t l p E) as [Hy ->].
  unfold titlesInBand, noBlankPage, lastPlaced, lineHeight in *.
  destruct (Z.gtb_spec (yPos p) 250) as [G|G]; simpl in *.
  - repeat split.
    + apply Forall_app. split; [assumption|].
      constructor; [simpl; lia|constructor].
    + lia.
    + apply Adjacent_snoc; [assumption|].
      intros a Ha. right. simpl. rewrite (L a Ha). tauto.
    + intros a. rewrite rev_app_distr. simpl. intros Ea. inversion Ea. reflexivity.
  - repeat split.
    + apply Forall_app. split; [assumption|].
      constructor; [simpl; lia|constructor].
    + lia.
    + apply Adjacent_snoc; [assumption|].
      intros a Ha. left. simpl. rewrite (L a Ha). reflexivity.
    + intros a. rewrite rev_app_distr. simpl. intros Ea. inversion Ea. reflexivity.
Qed.

Lemma paged_header :
  titlesInBand (pdfHeader generated) /\ noBlankPage (pdfHeader generated).
Proof.
  unfold titlesInBand, noBlankPage, lastPlaced, pdfHeader. simpl.
  repeat split.
  - repeat constructor; discriminate.
  - lia.
  - apply Adjacent_two. left. reflexivity.
  - intros a E. inversion E. reflexivity.
Qed.

Lemma paged_report (text : jsstring) (r : AnalysisResult) :
  exists p,
    (titlesInBand p /\ noBlankPage p)
    /\ downloadPDF splitTextToSize generated text r
       = {| doc := save (lit "text-analysis-report.pdf") (doc p); yPos := yPos p |}.
Proof.
  apply (report_invariant_saved (fun q => titlesInBand q /\ noBlankPage q)).
  - apply paged_header.
  - intros t fs p Hfs. now apply paged_addText.
  - intros t p Ht. now apply paged_addSection.
Qed.

End OneLineTitles.

(** X11: when each section title fits on one line, every section title of
    the report starts between y = 25 and y = 255: a section never begins in
    the last 15 units of a page. *)
Theorem section_titles_start_in_band (text : jsstring) (r : AnalysisResult) :
  (forall t, In t sectionTitles ->
     List.length (splitTextToSize 14 bold t) = 1%nat) ->
  Forall (fun a => isTitle a = true -> (25 <= p_y a <= 255)%Z)
         (content (doc (downloadPDF splitTextToSize generated text r))).
Proof.
  intros Hfit.
  destruct (paged_report Hfit text r) as (p & ([T _] & _) & ->).
  exact T.
Qed.

(** X12: when each section title fits on one line, the report has no blank
    page: from one line to the next the page stays or advances by exactly
    one, the first line of a new page is at y = 20, or at y = 25 when it is
    a section title, and the last line is on the last page. *)
Theorem report_has_no_blank_page (text : jsstring) (r : AnalysisResult) :
  (forall t, In t sectionTitles ->
     List.length (splitTextToSize 14 bold t) = 1%nat) ->
  let d := doc (downloadPDF splitTextToSize generated text r) in
  Adjacent pageStep (content d)
  /\ (forall a, hd_error (content d) = Some a -> p_page a = 1%nat)
  /\ (forall a, hd_error (rev (content d)) = Some a -> p_page a = currentPage d).
Proof.
  intros Hfit.
  destruct (paged_report Hfit text r) as (p & (_ & [A L]) & E).
  cbv zeta. split; [rewrite E; exact A|].
  split; [|rewrite E; exact L].
  destruct (report_invariant_saved startsOnPageOne first_header
              (fun t fs q _ => first_addText t fs false q)
              (fun t q _ => first_addSection t q) text r)
    as (q & (a0 & rest & C & P) & ->).
  simpl. rewrite C. intros a Ha. inversion Ha; subst. exact P.
Qed.

(** X13: the report is made from the text that is in the textarea when it
    is exported, not from the text that was analysed: after the user has
    typed [t], the Input Text section prints [t] while every other section
    still prints the stored result; the file is saved as
    text-analysis-report.pdf. *)
Theorem export_prints_the_textarea (w : World) (r : AnalysisResult) (t : jsstring) :
  result (app w) = Some r ->
  exists pdf,
    handleDownloadPDF splitTextToSize generated (app (step w (Input t))) = Some pdf
    /\ printed pdf
       = [(20%Z, bold, lit "Text Analysis Report");
          (10%Z, normal, lit "Generated: " ++ generated)]
         ++ typesetSection splitTextToSize (inputSection t)
         ++ flat_map (typesetSection splitTextToSize)
              [statisticsSection r; readabilitySection r; tenseSection r;
               passiveSection r; frequencySection r; posSection r]
    /\ savedAs (doc pdf) = Some (lit "text-analysis-report.pdf").
Proof.
  intros H. unfold handleDownloadPDF. cbn [step app withApp setText result text].
  rewrite H. eexists. split; [reflexivity|].
  split; [|reflexivity].
  rewrite printed_downloadPDF. reflexivity.
Qed.

End ReportLayout.

(** *** Instances *)

Lemma section_titles_band_witness :
  Forall (fun a => isTitle a = true -> (25 <= p_y a <= 255)%Z)
         (content (doc (downloadPDF noWrap sampleDate sampleText sampleResult))).
Proof.
  apply (section_titles_start_in_band noWrap sampleDate sampleText sampleResult).
  intros t _. reflexivity.
Defined.

Lemma no_blank_page_witness :
  Adjacent pageStep
    (content (doc (downloadPDF noWrap sampleDate sampleText sampleResult))).
Proof.
  apply (report_has_no_blank_page noWrap sampleDate sampleText sampleResult).
  intros t _. reflexivity.
Defined.

Lemma export_prints_the_textarea_witness :
  exists pdf,
    handleDownloadPDF noWrap sampleDate
      (app (step (withApp sampleSuccess initialWorld) (Input paddedText)))
    = Some pdf
    /\ nth_error (printed pdf) 3 = Some (11%Z, normal, paddedText).
Proof.
  destruct (export_prints_the_textarea noWrap sampleDate
              (withApp sampleSuccess initialWorld) sampleResult paddedText eq_refl)
    as (pdf & E & P & _).
  exists pdf. split; [exact E|]. rewrite P. reflexivity.
Defined.
